(** * ESTSBike: the REST routes, the query gateway and the legacy stores

    A shallow embedding of the server side of ESTSBike
    (server/config/db.js, server/routes/*.js, server/server.js, the schema
    of server/database/estsbike.sql) and of the two in-browser stores
    (MemberStoreClass, EventStoreClass), followed by the properties of the
    association-integrity rules.

    JavaScript is dynamically typed and several handlers depend on it
    (a gateway result used as if it were a row array, a missing property
    read as [undefined]).  Values are therefore embedded as one type
    [JS.value], and every handler is written in a small state-and-exception
    monad over the pair (database, response). *)

From Stdlib Require Import ZArith List String Bool Lia DecimalString.
Import ListNotations.
Local Open Scope string_scope.
Local Open Scope list_scope.
Local Open Scope Z_scope.
Local Set Warnings "-register-all".

(* ================================================================== *)
(** ** JavaScript values *)
(* ================================================================== *)

Module JS.

(** Numbers are restricted to the integers and NaN: every number the
    handlers meet is a key, a count or a status code. *)
Inductive value :=
| undefined
| null
| boolean (b : bool)
| num (z : Z)
| NaN
| str (s : string)
| arr (elements : list value)
| obj (fields : list (string * value)).

(** What a [throw] carries. *)
Inductive error :=
| TypeError (msg : string)
| DriverError (code : string)
| Error (msg : string).

(** ToBoolean: the operand of [!x], [x && y], [x ? a : b]. *)
Definition truthy (v : value) : bool :=
  match v with
  | undefined | null | NaN => false
  | boolean b => b
  | num z => negb (z =? 0)
  | str s => negb (s =? "")%string
  | arr _ | obj _ => true
  end.

Fixpoint assoc (k : string) (fields : list (string * value)) : value :=
  match fields with
  | [] => undefined
  | (k', v) :: rest => if (k =? k')%string then v else assoc k rest
  end.

(** [v.k]: reading a property of [undefined] or [null] throws; a
    property that is not there reads as [undefined]. *)
Definition get (v : value) (k : string) : error + value :=
  match v with
  | undefined => inl (TypeError "Cannot read properties of undefined")
  | null => inl (TypeError "Cannot read properties of null")
  | obj fields => inr (assoc k fields)
  | arr l => if (k =? "length")%string then inr (num (Z.of_nat (List.length l)))
             else inr undefined
  | str s => if (k =? "length")%string then inr (num (Z.of_nat (String.length s)))
             else inr undefined
  | _ => inr undefined
  end.

(** [v[i]] for a numeric index. *)
Definition index (v : value) (i : nat) : error + value :=
  match v with
  | undefined => inl (TypeError "Cannot read properties of undefined")
  | null => inl (TypeError "Cannot read properties of null")
  | arr l => inr (nth i l undefined)
  | str s => inr (match String.get i s with
                  | Some c => str (String c EmptyString)
                  | None => undefined
                  end)
  | _ => inr undefined
  end.

(** [const [x] = v]: array destructuring asks [v] for its iterator.
    Arrays and strings have one; a plain object, a number or a boolean
    has none, and the binding throws. *)
Definition destructure_first (v : value) : error + value :=
  match v with
  | arr l => inr (nth 0 l undefined)
  | str s => inr (match String.get 0 s with
                  | Some c => str (String c EmptyString)
                  | None => undefined
                  end)
  | undefined => inl (TypeError "undefined is not iterable")
  | null => inl (TypeError "null is not iterable")
  | _ => inl (TypeError "object is not iterable")
  end.

(** [v === num z], the only strict comparisons the handlers make. *)
Definition is_num (v : value) (z : Z) : bool :=
  match v with
  | num z' => z' =? z
  | _ => false
  end.

Definition is_undefined (v : value) : bool :=
  match v with
  | undefined => true
  | _ => false
  end.

(** [v > z] on a number; [undefined > z] is false (NaN comparison). *)
Definition gt (v : value) (z : Z) : bool :=
  match v with
  | num z' => z <? z'
  | _ => false
  end.

Definition isArray (v : value) : bool :=
  match v with
  | arr _ => true
  | _ => false
  end.

(** [isNaN(v)] on the result of [Number(...)]. *)
Definition isNaN (v : value) : bool :=
  match v with
  | NaN => true
  | _ => false
  end.

(** [a || b] *)
Definition or (a b : value) : value := if truthy a then a else b.

(** [v.map(f)] on an array. *)
Definition array_map (f : value -> value) (v : value) : error + value :=
  match v with
  | arr l => inr (arr (List.map f l))
  | undefined => inl (TypeError "Cannot read properties of undefined")
  | null => inl (TypeError "Cannot read properties of null")
  | _ => inl (TypeError "map is not a function")
  end.

(** Decimal rendering of an integer inside a template literal. *)
Definition to_string (z : Z) : string :=
  NilZero.string_of_int (Z.to_int z).

End JS.

(* ================================================================== *)
(** ** The persistent store (server/database/estsbike.sql) *)
(* ================================================================== *)

(** The five tables, with their primary keys, the UNIQUE name of
    [event_types], the foreign keys and their ON DELETE CASCADE rules.
    The [created_at]/[updated_at] columns, column widths and collations
    are not modelled.  Rows are kept in insertion order. *)
Module Schema.

Record event_type := { et_id : Z; et_name : string }.
Record member := { m_id : Z; m_name : string }.
Record event :=
  { e_id : Z; e_type_id : Z; e_name : string; e_date : string }.

Record database := {
  event_types : list event_type;
  event_types_auto : Z;              (* AUTO_INCREMENT counter *)
  members : list member;
  members_auto : Z;
  events : list event;
  events_auto : Z;
  (* rows (member_id, event_type_id), PRIMARY KEY both columns *)
  member_preferred_event_types : list (Z * Z);
  (* rows (member_id, event_id), PRIMARY KEY both columns *)
  member_events : list (Z * Z)
}.

Definition count {A} (p : A -> bool) (l : list A) : Z :=
  Z.of_nat (List.length (filter p l)).

Definition pair_eqb (a b : Z * Z) : bool :=
  (fst a =? fst b) && (snd a =? snd b).

Definition has_event_type (id : Z) (d : database) : bool :=
  existsb (fun t => et_id t =? id) (event_types d).
Definition has_member (id : Z) (d : database) : bool :=
  existsb (fun m => m_id m =? id) (members d).
Definition has_event (id : Z) (d : database) : bool :=
  existsb (fun e => e_id e =? id) (events d).
Definition has_preference (m t : Z) (d : database) : bool :=
  existsb (pair_eqb (m, t)) (member_preferred_event_types d).
Definition has_registration (m e : Z) (d : database) : bool :=
  existsb (pair_eqb (m, e)) (member_events d).

(** The counts the deletion guards and the cascades are about. *)
Definition events_of_type (t : Z) (d : database) : Z :=
  count (fun e => e_type_id e =? t) (events d).
Definition preferences_of_type (t : Z) (d : database) : Z :=
  count (fun r => snd r =? t) (member_preferred_event_types d).
Definition preferences_of_member (m : Z) (d : database) : Z :=
  count (fun r => fst r =? m) (member_preferred_event_types d).
Definition registrations_of_member (m : Z) (d : database) : Z :=
  count (fun r => fst r =? m) (member_events d).

(** Rows as the driver hands them to JavaScript. *)
Definition event_type_row (t : event_type) : JS.value :=
  JS.obj [("id", JS.num (et_id t)); ("name", JS.str (et_name t))].
Definition member_row (m : member) : JS.value :=
  JS.obj [("id", JS.num (m_id m)); ("name", JS.str (m_name m))].
Definition event_row (e : event) : JS.value :=
  JS.obj [("id", JS.num (e_id e)); ("type_id", JS.num (e_type_id e));
          ("name", JS.str (e_name e)); ("date", JS.str (e_date e))].
Definition count_row (n : Z) : JS.value :=
  JS.obj [("count", JS.num n)].

(** The header a write statement returns (its other fields are not
    read by any handler).  [affectedRows] of an UPDATE counts the rows
    matched: the driver connects with the FOUND_ROWS flag. *)
Definition header (affectedRows insertId : Z) : JS.value :=
  JS.obj [("affectedRows", JS.num affectedRows); ("insertId", JS.num insertId)].

(** *** Statements on [event_types] *)

Definition insert_event_type (name : string) (d : database)
  : JS.error + JS.value * database :=
  if existsb (fun t => (et_name t =? name)%string) (event_types d)
     || has_event_type (event_types_auto d) d
  then inl (JS.DriverError "ER_DUP_ENTRY")
  else
    let id := event_types_auto d in
    inr (header 1 id,
         {| event_types := event_types d ++ [{| et_id := id; et_name := name |}];
            event_types_auto := id + 1;
            members := members d; members_auto := members_auto d;
            events := events d; events_auto := events_auto d;
            member_preferred_event_types := member_preferred_event_types d;
            member_events := member_events d |}).

Definition update_event_type (name : string) (id : Z) (d : database)
  : JS.error + JS.value * database :=
  if has_event_type id d
     && existsb (fun t => negb (et_id t =? id) && (et_name t =? name)%string)
                (event_types d)
  then inl (JS.DriverError "ER_DUP_ENTRY")
  else
    inr (header (count (fun t => et_id t =? id) (event_types d)) 0,
         {| event_types :=
              map (fun t => if et_id t =? id
                            then {| et_id := et_id t; et_name := name |}
                            else t) (event_types d);
            event_types_auto := event_types_auto d;
            members := members d; members_auto := members_auto d;
            events := events d; events_auto := events_auto d;
            member_preferred_event_types := member_preferred_event_types d;
            member_events := member_events d |}).

(** DELETE on [event_types] cascades to the events of the type (and
    from those to their registrations) and to the preference rows. *)
Definition delete_event_type (id : Z) (d : database)
  : JS.error + JS.value * database :=
  inr (header (count (fun t => et_id t =? id) (event_types d)) 0,
       {| event_types := filter (fun t => negb (et_id t =? id)) (event_types d);
          event_types_auto := event_types_auto d;
          members := members d; members_auto := members_auto d;
          events := filter (fun e => negb (e_type_id e =? id)) (events d);
          events_auto := events_auto d;
          member_preferred_event_types :=
            filter (fun r => negb (snd r =? id)) (member_preferred_event_types d);
          member_events :=
            filter (fun r => negb (existsb (fun e => (e_id e =? snd r)
                                                     && (e_type_id e =? id))
                                           (events d)))
                   (member_events d) |}).

(** The database without the [event_types] row [t], all else as it was. *)
Definition without_event_type (t : Z) (d : database) : database :=
  {| event_types := filter (fun x => negb (et_id x =? t)) (event_types d);
     event_types_auto := event_types_auto d;
     members := members d; members_auto := members_auto d;
     events := events d; events_auto := events_auto d;
     member_preferred_event_types := member_preferred_event_types d;
     member_events := member_events d |}.

(** The database without the member [m] and without the junction rows
    of [m], all else as it was. *)
Definition without_member (m : Z) (d : database) : database :=
  {| event_types := event_types d;
     event_types_auto := event_types_auto d;
     members := filter (fun x => negb (m_id x =? m)) (members d);
     members_auto := members_auto d;
     events := events d; events_auto := events_auto d;
     member_preferred_event_types :=
       filter (fun r => negb (fst r =? m)) (member_preferred_event_types d);
     member_events := filter (fun r => negb (fst r =? m)) (member_events d) |}.

(** *** Statements on [events] *)

Definition delete_event (id : Z) (d : database)
  : JS.error + JS.value * database :=
  inr (header (count (fun e => e_id e =? id) (events d)) 0,
       {| event_types := event_types d;
          event_types_auto := event_types_auto d;
          members := members d; members_auto := members_auto d;
          events := filter (fun e => negb (e_id e =? id)) (events d);
          events_auto := events_auto d;
          member_preferred_event_types := member_preferred_event_types d;
          member_events :=
            filter (fun r => negb (snd r =? id)) (member_events d) |}).

(** *** Statements on [members] and the two junction tables *)

Definition insert_member (name : string) (d : database)
  : JS.error + JS.value * database :=
  if has_member (members_auto d) d
  then inl (JS.DriverError "ER_DUP_ENTRY")
  else
    let id := members_auto d in
    inr (header 1 id,
         {| event_types := event_types d;
            event_types_auto := event_types_auto d;
            members := members d ++ [{| m_id := id; m_name := name |}];
            members_auto := id + 1;
            events := events d; events_auto := events_auto d;
            member_preferred_event_types := member_preferred_event_types d;
            member_events := member_events d |}).

Definition update_member (name : string) (id : Z) (d : database)
  : JS.error + JS.value * database :=
  inr (header (count (fun m => m_id m =? id) (members d)) 0,
       {| event_types := event_types d;
          event_types_auto := event_types_auto d;
          members :=
            map (fun m => if m_id m =? id
                          then {| m_id := m_id m; m_name := name |}
                          else m) (members d);
          members_auto := members_auto d;
          events := events d; events_auto := events_auto d;
          member_preferred_event_types := member_preferred_event_types d;
          member_events := member_events d |}).

(** DELETE on [members] cascades to both junction tables. *)
Definition delete_member (id : Z) (d : database)
  : JS.error + JS.value * database :=
  inr (header (count (fun m => m_id m =? id) (members d)) 0,
       {| event_types := event_types d;
          event_types_auto := event_types_auto d;
          members := filter (fun m => negb (m_id m =? id)) (members d);
          members_auto := members_auto d;
          events := events d; events_auto := events_auto d;
          member_preferred_event_types :=
            filter (fun r => negb (fst r =? id)) (member_preferred_event_types d);
          member_events :=
            filter (fun r => negb (fst r =? id)) (member_events d) |}).

Definition delete_member_events (m : Z) (d : database)
  : JS.error + JS.value * database :=
  inr (header (count (fun r => fst r =? m) (member_events d)) 0,
       {| event_types := event_types d;
          event_types_auto := event_types_auto d;
          members := members d; members_auto := members_auto d;
          events := events d; events_auto := events_auto d;
          member_preferred_event_types := member_preferred_event_types d;
          member_events := filter (fun r => negb (fst r =? m)) (member_events d) |}).

Definition delete_preferred_event_types (m : Z) (d : database)
  : JS.error + JS.value * database :=
  inr (header (count (fun r => fst r =? m) (member_preferred_event_types d)) 0,
       {| event_types := event_types d;
          event_types_auto := event_types_auto d;
          members := members d; members_auto := members_auto d;
          events := events d; events_auto := events_auto d;
          member_preferred_event_types :=
            filter (fun r => negb (fst r =? m)) (member_preferred_event_types d);
          member_events := member_events d |}).

Definition insert_member_event (m e : Z) (d : database)
  : JS.error + JS.value * database :=
  if negb (has_member m d && has_event e d)
  then inl (JS.DriverError "ER_NO_REFERENCED_ROW")
  else if has_registration m e d
  then inl (JS.DriverError "ER_DUP_ENTRY")
  else
    inr (header 1 0,
         {| event_types := event_types d;
            event_types_auto := event_types_auto d;
            members := members d; members_auto := members_auto d;
            events := events d; events_auto := events_auto d;
            member_preferred_event_types := member_preferred_event_types d;
            member_events := member_events d ++ [(m, e)] |}).

Definition delete_member_event (m e : Z) (d : database)
  : JS.error + JS.value * database :=
  inr (header (count (pair_eqb (m, e)) (member_events d)) 0,
       {| event_types := event_types d;
          event_types_auto := event_types_auto d;
          members := members d; members_auto := members_auto d;
          events := events d; events_auto := events_auto d;
          member_preferred_event_types := member_preferred_event_types d;
          member_events :=
            filter (fun r => negb (pair_eqb (m, e) r)) (member_events d) |}).

(** The database once the member [m] is renamed and the preference
    rows of [m] are deleted. *)
Definition renamed (name : string) (m : Z) (d : database) : database :=
  {| event_types := event_types d;
     event_types_auto := event_types_auto d;
     members :=
       map (fun x => if m_id x =? m
                     then {| m_id := m_id x; m_name := name |}
                     else x) (members d);
     members_auto := members_auto d;
     events := events d; events_auto := events_auto d;
     member_preferred_event_types :=
       filter (fun r => negb (fst r =? m)) (member_preferred_event_types d);
     member_events := member_events d |}.

(** The database with other rows in one table, all else as it was. *)
Definition with_event_types (rows : list event_type) (auto : Z) (d : database)
  : database :=
  {| event_types := rows; event_types_auto := auto;
     members := members d; members_auto := members_auto d;
     events := events d; events_auto := events_auto d;
     member_preferred_event_types := member_preferred_event_types d;
     member_events := member_events d |}.


Definition with_events (rows : list event) (d : database) : database :=
  {| event_types := event_types d; event_types_auto := event_types_auto d;
     members := members d; members_auto := members_auto d;
     events := rows; events_auto := events_auto d;
     member_preferred_event_types := member_preferred_event_types d;
     member_events := member_events d |}.

Definition with_registrations (rows : list (Z * Z)) (d : database) : database :=
  {| event_types := event_types d; event_types_auto := event_types_auto d;
     members := members d; members_auto := members_auto d;
     events := events d; events_auto := events_auto d;
     member_preferred_event_types := member_preferred_event_types d;
     member_events := rows |}.

(** The number of registrations of an event. *)
Definition registrations_of_event (e : Z) (d : database) : Z :=
  count (fun r => snd r =? e) (member_events d).

(** *** What the schema guarantees *)

(** The constraints of the five tables, as a property of a database:
    primary keys and the UNIQUE name do not repeat, every foreign key
    points at a row, and the AUTO_INCREMENT counters are positive and
    above every id handed out. *)
Record consistent (d : database) : Prop := {
  event_type_ids : NoDup (map et_id (event_types d));
  event_type_names : NoDup (map et_name (event_types d));
  member_ids : NoDup (map m_id (members d));
  event_ids : NoDup (map e_id (events d));
  preference_rows : NoDup (member_preferred_event_types d);
  registration_rows : NoDup (member_events d);
  event_type_fk :
    forall e, In e (events d) -> has_event_type (e_type_id e) d = true;
  preference_fk :
    forall r, In r (member_preferred_event_types d) ->
              has_member (fst r) d = true /\ has_event_type (snd r) d = true;
  registration_fk :
    forall r, In r (member_events d) ->
              has_member (fst r) d = true /\ has_event (snd r) d = true;
  event_types_counter :
    0 < event_types_auto d
    /\ forall t, In t (event_types d) -> 0 < et_id t < event_types_auto d;
  members_counter :
    0 < members_auto d
    /\ forall m, In m (members d) -> 0 < m_id m < members_auto d;
  events_counter :
    0 < events_auto d
    /\ forall e, In e (events d) -> 0 < e_id e < events_auto d
}.

End Schema.

(* ================================================================== *)
(** ** The statements of the route files and the driver *)
(* ================================================================== *)

Module Sql.

(** One constructor per query constant of the route files. *)
Inductive query :=
(* EventTypesRoutes.js *)
| insertEventType       (* INSERT INTO event_types (name) VALUES (?) *)
| updateEventType       (* UPDATE event_types SET name = ? WHERE id = ? *)
| deleteEventType       (* DELETE FROM event_types WHERE id = ? *)
| checkEventsWithType   (* SELECT COUNT( * ) as count FROM events WHERE type_id = ? *)
| checkMembersWithType  (* SELECT COUNT( * ) as count FROM member_preferred_event_types
                           WHERE event_type_id = ? *)
(* EventRoutes.js *)
| deleteEvent               (* DELETE FROM events WHERE id = ? *)
| checkEventRegistrations   (* SELECT COUNT( * ) as count FROM member_events
                               WHERE event_id = ? *)
(* MemberRoutes.js *)
| getMemberById             (* SELECT * FROM members WHERE id = ? *)
| insertMember              (* INSERT INTO members (name) VALUES (?) *)
| updateMember              (* UPDATE members SET name = ? WHERE id = ? *)
| deleteMember              (* DELETE FROM members WHERE id = ? *)
| deleteMemberEvents        (* DELETE FROM member_events WHERE member_id = ? *)
| deletePreferredEventTypes (* DELETE FROM member_preferred_event_types
                               WHERE member_id = ? *)
| insertPreferredEventTypes (* INSERT INTO member_preferred_event_types
                               (member_id, event_type_id) VALUES ? *)
(* the member-event route file *)
| registerMemberEvent    (* INSERT INTO member_events (member_id, event_id)
                            VALUES (?, ?) *)
| deleteMemberEvent      (* DELETE FROM member_events
                            WHERE member_id = ? AND event_id = ? *)
| checkMemberExists      (* SELECT * FROM members WHERE id = ? *)
| checkEventExists       (* SELECT * FROM events WHERE id = ? *)
| checkMemberPreference. (* SELECT COUNT( * ) as count FROM member_preferred_event_types
                            WHERE member_id = ? AND event_type_id = ? *)

Definition rows_of {A} (row : A -> JS.value) (p : A -> bool) (table : list A)
           (d : Schema.database) : JS.error + JS.value * Schema.database :=
  inr (JS.arr (map row (filter p table)), d).

Definition count_of {A} (p : A -> bool) (table : list A)
           (d : Schema.database) : JS.error + JS.value * Schema.database :=
  inr (JS.arr [Schema.count_row (Schema.count p table)], d).

(** [connection.execute(command, parameters)]: the result of the
    statement and the database after it, or the error the driver
    throws (a constraint violation, or a parameter that cannot be
    bound, such as [undefined]).  [execute] prepares its statement on
    the server, where a placeholder stands for one value:
    [insertPreferredEventTypes] ends in [VALUES ?], which is not a
    statement the server can prepare, so it is rejected whatever the
    parameters are and no row is stored. *)
Definition driver (command : query) (parameters : list JS.value)
           (d : Schema.database) : JS.error + JS.value * Schema.database :=
  match command, parameters with
  | insertEventType, [JS.str name] => Schema.insert_event_type name d
  | updateEventType, [JS.str name; JS.num id] => Schema.update_event_type name id d
  | deleteEventType, [JS.num id] => Schema.delete_event_type id d
  | checkEventsWithType, [JS.num id] =>
      count_of (fun e => Schema.e_type_id e =? id) (Schema.events d) d
  | checkMembersWithType, [JS.num id] =>
      count_of (fun r => snd r =? id) (Schema.member_preferred_event_types d) d
  | deleteEvent, [JS.num id] => Schema.delete_event id d
  | checkEventRegistrations, [JS.num id] =>
      count_of (fun r => snd r =? id) (Schema.member_events d) d
  | getMemberById, [JS.num id]
  | checkMemberExists, [JS.num id] =>
      rows_of Schema.member_row (fun m => Schema.m_id m =? id) (Schema.members d) d
  | insertMember, [JS.str name] => Schema.insert_member name d
  | updateMember, [JS.str name; JS.num id] => Schema.update_member name id d
  | deleteMember, [JS.num id] => Schema.delete_member id d
  | deleteMemberEvents, [JS.num id] => Schema.delete_member_events id d
  | deletePreferredEventTypes, [JS.num id] =>
      Schema.delete_preferred_event_types id d
  | insertPreferredEventTypes, _ => inl (JS.DriverError "ER_PARSE_ERROR")
  | registerMemberEvent, [JS.num m; JS.num e] => Schema.insert_member_event m e d
  | deleteMemberEvent, [JS.num m; JS.num e] => Schema.delete_member_event m e d
  | checkEventExists, [JS.num id] =>
      rows_of Schema.event_row (fun e => Schema.e_id e =? id) (Schema.events d) d
  | checkMemberPreference, [JS.num m; JS.num t] =>
      count_of (Schema.pair_eqb (m, t)) (Schema.member_preferred_event_types d) d
  | _, _ => inl (JS.DriverError "bind parameters")
  end.

End Sql.

(* ================================================================== *)
(** ** Requests, responses and the handler monad *)
(* ================================================================== *)

Module Http.

(** A route parameter is a string; the handlers read it through
    [Number(...)] only.  [Numeral z] is the decimal numeral of the
    integer [z]; [Text s] is a string that [Number] reads as NaN. *)
Inductive param :=
| Numeral (z : Z)
| Text (s : string).

Definition Number (p : param) : JS.value :=
  match p with
  | Numeral z => JS.num z
  | Text _ => JS.NaN
  end.

(** The JSON request body of the routes on names and preferences; a
    field that is absent reads as [undefined]. *)
Record body := {
  name : option string;
  preferredEventTypes : option (list Z)
}.

Definition body_name (b : body) : JS.value :=
  match name b with
  | Some s => JS.str s
  | None => JS.undefined
  end.

Definition body_preferredEventTypes (b : body) : JS.value :=
  match preferredEventTypes b with
  | Some l => JS.arr (map JS.num l)
  | None => JS.undefined
  end.

(** What a handler writes to its response object. *)
Inductive payload :=
| text (s : string)       (* .end(s) *)
| json (v : JS.value)     (* .json(v) *)
| empty.                  (* .send() *)

Record reply := { code : Z; content : payload }.

(** The state a handler runs in: the database behind the gateway and
    the replies written to the response so far. *)
Record world := { db : Schema.database; response : list reply }.

(** A handler step either returns or throws, and leaves a world. *)
Definition M (A : Type) : Type := world -> (JS.error + A) * world.

Definition ret {A} (a : A) : M A := fun w => (inr a, w).

Definition bind {A B} (c : M A) (k : A -> M B) : M B :=
  fun w => match c w with
           | (inr a, w') => k a w'
           | (inl e, w') => (inl e, w')
           end.

Definition lift {A} (r : JS.error + A) : M A := fun w => (r, w).

(** [try { c } catch (error) { handler(error) }] *)
Definition try_catch {A} (c : M A) (handler : JS.error -> M A) : M A :=
  fun w => match c w with
           | (inr a, w') => (inr a, w')
           | (inl e, w') => handler e w'
           end.

Definition write (r : reply) : M unit :=
  fun w => (inr tt, {| db := db w; response := response w ++ [r] |}).

(** A handler started on a database, with an untouched response. *)
Definition run {A} (handler : M A) (d : Schema.database) : (JS.error + A) * world :=
  handler {| db := d; response := [] |}.

Definition replies {A} (handler : M A) (d : Schema.database) : list reply :=
  response (snd (run handler d)).

Definition database_after {A} (handler : M A) (d : Schema.database)
  : Schema.database :=
  db (snd (run handler d)).

Definition thrown {A} (handler : M A) (d : Schema.database) : option JS.error :=
  match fst (run handler d) with
  | inl e => Some e
  | inr _ => None
  end.

(** The two refusals the name checks and the existence checks end in:
    one reply, and the database as it was. *)
Definition bad_request (d : Schema.database) : (JS.error + unit) * world :=
  (inr tt,
   {| db := d;
      response := [{| code := 400; content := text "Name is required" |}] |}).

Definition not_found (reason : string) (d : Schema.database)
  : (JS.error + unit) * world :=
  (inr tt,
   {| db := d; response := [{| code := 404; content := text reason |}] |}).

End Http.

Declare Scope handler_scope.
Delimit Scope handler_scope with handler.
Notation "x <- c ;; k" := (Http.bind c (fun x => k))
  (at level 61, c at next level, right associativity) : handler_scope.
Notation "c ;;; k" := (Http.bind c (fun _ => k))
  (at level 61, right associativity) : handler_scope.
Local Open Scope handler_scope.

(* ================================================================== *)
(** ** The query gateway (server/config/db.js) *)
(* ================================================================== *)

Module Db.

(** [execute(command, parameters)]: runs the statement on a fresh
    connection; whatever the driver throws is caught and the call
    returns [undefined]. *)
Definition execute (command : Sql.query) (parameters : list JS.value)
  : Http.M JS.value :=
  fun w =>
    match Sql.driver command parameters (Http.db w) with
    | inr (result, d') =>
        (inr result, {| Http.db := d'; Http.response := Http.response w |})
    | inl _ => (inr JS.undefined, w)
    end.

(** [number(value)]: [Number(value)], with NaN turned into [undefined]. *)
Definition number (value : Http.param) : JS.value :=
  let result := Http.Number value in
  if JS.isNaN result then JS.undefined else result.

(** [sendError(response, error, status)]:
    [response.status(status).end(typeof error === "string" ? error : "")].
    Every call site passes the status. *)
Definition sendError (error : JS.value) (status : Z) : Http.M unit :=
  Http.write {| Http.code := status;
                Http.content := Http.text (match error with
                                           | JS.str s => s
                                           | _ => ""
                                           end) |}.

(** The object [{ status, data }] that [sendResponse] resolves to. *)
Record outcome := { status : Z; data : JS.value }.

(** The same object as a JavaScript value, for the call sites that
    treat it as something else. *)
Definition object (r : outcome) : JS.value :=
  JS.obj [("status", JS.num (status r)); ("data", data r)].

Definition message (s : string) : JS.value := JS.obj [("message", JS.str s)].

(** [`${v} row(s) affected`] *)
Definition rows_affected (v : JS.value) : string :=
  match v with
  | JS.num z => (JS.to_string z ++ " row(s) affected")%string
  | _ => " row(s) affected"
  end.

(** [sendResponse(response, query, params, transform, status = 200)].
    It never writes to [response]: it returns the normalized outcome. *)
Definition sendResponse (query : Sql.query) (params : list JS.value)
           (transform : JS.value -> Http.M JS.value) (status : Z)
  : Http.M outcome :=
  Http.try_catch
    (result <- execute query params ;;
     affectedRows <- (if JS.truthy result
                      then Http.lift (JS.get result "affectedRows")
                      else Http.ret JS.undefined) ;;
     if JS.truthy result && negb (JS.is_undefined affectedRows) then
       if JS.is_num affectedRows 0 then
         Http.ret {| status := 404; data := message "No data found or affected" |}
       else
         Http.ret {| status := status; data := message (rows_affected affectedRows) |}
     else
       length <- (if JS.truthy result && JS.isArray result
                  then Http.lift (JS.get result "length")
                  else Http.ret JS.undefined) ;;
       if negb (JS.truthy result) || negb (JS.isArray result) || JS.is_num length 0
       then Http.ret {| status := 404; data := message "No data found" |}
       else
         transformed <- transform result ;;
         Http.ret {| status := status; data := transformed |})
    (fun error =>
       Http.ret {| status := 500;
                   data := JS.obj [("error", JS.str "Database query failed")] |}).

(** [response.status(status).json(data)] *)
Definition respond_json (status : Z) (data : JS.value) : Http.M unit :=
  Http.write {| Http.code := status; Http.content := Http.json data |}.

End Db.

(* ================================================================== *)
(** ** The SELECT statements of the list and get routes *)
(* ================================================================== *)

Module Selects.

(** The query constants that only the list and get handlers use. *)
Inductive query :=
| selectAllEventTypes   (* SELECT * FROM event_types *)
| selectEventTypeById   (* SELECT * FROM event_types WHERE id = ? *)
| getAllMembers         (* SELECT * FROM members *)
| selectAllEvents       (* SELECT e.*, et.name as type_name FROM events e
                           JOIN event_types et ON e.type_id = et.id *)
| selectEventById.      (* the same, WHERE e.id = ? *)

(** A row of [events] joined with the row of its type. *)
Definition joined_row (e : Schema.event) (t : Schema.event_type) : JS.value :=
  JS.obj [("id", JS.num (Schema.e_id e)); ("type_id", JS.num (Schema.e_type_id e));
          ("name", JS.str (Schema.e_name e)); ("date", JS.str (Schema.e_date e));
          ("type_name", JS.str (Schema.et_name t))].

(** [events e JOIN event_types et ON e.type_id = et.id], restricted to
    the events that satisfy [p]. *)
Definition joined (p : Schema.event -> bool) (d : Schema.database) : list JS.value :=
  flat_map (fun e =>
              map (joined_row e)
                  (filter (fun t => Schema.et_id t =? Schema.e_type_id e)
                          (Schema.event_types d)))
           (filter p (Schema.events d)).

(** The joined row of an event whose type is in the table. *)
Definition typed_row (d : Schema.database) (e : Schema.event) : JS.value :=
  match find (fun t => Schema.et_id t =? Schema.e_type_id e)
             (Schema.event_types d) with
  | Some t => joined_row e t
  | None => JS.undefined
  end.

(** [connection.execute] on these statements: none changes the
    database. *)
Definition driver (command : query) (parameters : list JS.value)
           (d : Schema.database) : JS.error + JS.value * Schema.database :=
  match command, parameters with
  | selectAllEventTypes, [] =>
      inr (JS.arr (map Schema.event_type_row (Schema.event_types d)), d)
  | selectEventTypeById, [JS.num id] =>
      inr (JS.arr (map Schema.event_type_row
                       (filter (fun t => Schema.et_id t =? id) (Schema.event_types d))),
           d)
  | getAllMembers, [] =>
      inr (JS.arr (map Schema.member_row (Schema.members d)), d)
  | selectAllEvents, [] => inr (JS.arr (joined (fun _ => true) d), d)
  | selectEventById, [JS.num id] =>
      inr (JS.arr (joined (fun e => Schema.e_id e =? id) d), d)
  | _, _ => inl (JS.DriverError "bind parameters")
  end.

(** [execute(command, parameters)] of [db.js], on these statements. *)
Definition execute (command : query) (parameters : list JS.value)
  : Http.M JS.value :=
  fun w =>
    match driver command parameters (Http.db w) with
    | inr (result, d') =>
        (inr result, {| Http.db := d'; Http.response := Http.response w |})
    | inl _ => (inr JS.undefined, w)
    end.

(** The part of [sendResponse] that follows [await execute(...)]: the
    normalization of the driver's result. *)
Definition normalize (result : JS.value)
           (transform : JS.value -> Http.M JS.value) (status : Z)
  : Http.M Db.outcome :=
  affectedRows <- (if JS.truthy result
                   then Http.lift (JS.get result "affectedRows")
                   else Http.ret JS.undefined) ;;
  if JS.truthy result && negb (JS.is_undefined affectedRows) then
    if JS.is_num affectedRows 0 then
      Http.ret {| Db.status := 404;
                  Db.data := Db.message "No data found or affected" |}
    else
      Http.ret {| Db.status := status;
                  Db.data := Db.message (Db.rows_affected affectedRows) |}
  else
    length <- (if JS.truthy result && JS.isArray result
               then Http.lift (JS.get result "length")
               else Http.ret JS.undefined) ;;
    if negb (JS.truthy result) || negb (JS.isArray result) || JS.is_num length 0
    then Http.ret {| Db.status := 404; Db.data := Db.message "No data found" |}
    else
      transformed <- transform result ;;
      Http.ret {| Db.status := status; Db.data := transformed |}.

(** [sendResponse(response, query, params, transform, status = 200)] of
    [db.js], on these statements. *)
Definition sendResponse (query : query) (params : list JS.value)
           (transform : JS.value -> Http.M JS.value) (status : Z)
  : Http.M Db.outcome :=
  Http.try_catch
    (result <- execute query params ;;
     normalize result transform status)
    (fun error =>
       Http.ret {| Db.status := 500;
                   Db.data := JS.obj [("error", JS.str "Database query failed")] |}).

End Selects.

(* ================================================================== *)
(** ** server/routes/EventTypesRoutes.js *)
(* ================================================================== *)

Module EventTypesRoutes.

(** POST /event-types *)
Definition createEventType (body : Http.body) : Http.M unit :=
  let name := Http.body_name body in
  if negb (JS.truthy name) then
    Db.sendError (JS.str "Name is required") 400
  else
    result <- Db.sendResponse Sql.insertEventType [name]
                (fun result =>
                   insertId <- Http.lift (JS.get result "insertId") ;;
                   Http.ret (JS.obj [("id", insertId); ("name", name)]))
                201 ;;
    if Db.status result =? 201 then
      Db.respond_json (Db.status result) (Db.data result)
    else
      message <- Http.lift (JS.get (Db.data result) "message") ;;
      Db.sendError message (Db.status result).

(** PUT /event-types/:id *)
Definition updateEventTypeById (params_id : Http.param) (body : Http.body)
  : Http.M unit :=
  let id := Db.number params_id in
  let name := Http.body_name body in
  if negb (JS.truthy id) || negb (JS.truthy name) then
    Db.sendError (JS.str "Name is required") 400
  else
    result <- Db.sendResponse Sql.updateEventType [name; id]
                (fun result =>
                   affectedRows <- Http.lift (JS.get result "affectedRows") ;;
                   if JS.truthy affectedRows
                   then Http.ret (JS.obj [("id", id); ("name", name)])
                   else Db.sendError (JS.str "Event type not found") 404 ;;;
                        Http.ret JS.undefined)
                200 ;;
    if Db.status result =? 200 then
      Db.respond_json (Db.status result) (Db.data result)
    else
      message <- Http.lift (JS.get (Db.data result) "message") ;;
      Db.sendError message (Db.status result).

(** DELETE /event-types/:id *)
Definition deleteEventTypeById (params_id : Http.param) : Http.M unit :=
  let id := Db.number params_id in
  if negb (JS.truthy id) then
    Db.sendError (JS.str "You must indicate the event type ID") 400
  else
    result <- Db.sendResponse Sql.checkEventsWithType [id] Http.ret 200 ;;
    events <- Http.lift (JS.index (Db.data result) 0) ;;
    events_count <- Http.lift (JS.get events "count") ;;
    if JS.gt events_count 0 then
      Db.sendError (JS.str "Cannot delete event type that is being used by events") 400
    else
      resultMembers <- Db.sendResponse Sql.checkMembersWithType [id] Http.ret 200 ;;
      members <- Http.lift (JS.index (Db.data resultMembers) 0) ;;
      members_count <- Http.lift (JS.get members "count") ;;
      if JS.gt members_count 0 then
        Db.sendError
          (JS.str "Cannot delete event type that is preferred by members") 400
      else
        deleteResult <-
          Db.sendResponse Sql.deleteEventType [id]
            (fun result =>
               affectedRows <- Http.lift (JS.get result "affectedRows") ;;
               if JS.truthy affectedRows
               then Http.ret (JS.obj [("count", affectedRows)])
               else Db.sendError (JS.str "Event type not found") 404 ;;;
                    Http.ret JS.undefined)
            200 ;;
        if Db.status deleteResult =? 200 then
          Db.respond_json (Db.status deleteResult) (Db.data deleteResult)
        else
          message <- Http.lift (JS.get (Db.data deleteResult) "message") ;;
          Db.sendError message (Db.status deleteResult).

(** GET /event-types *)
Definition getAllEventTypes : Http.M unit :=
  result <- Selects.sendResponse Selects.selectAllEventTypes [] Http.ret 200 ;;
  if Db.status result =? 200 then
    Db.respond_json (Db.status result) (Db.data result)
  else
    message <- Http.lift (JS.get (Db.data result) "message") ;;
    Db.sendError message (Db.status result).

(** GET /event-types/:id *)
Definition getEventTypeById (params_id : Http.param) : Http.M unit :=
  let id := Db.number params_id in
  if JS.truthy id then
    result <- Selects.sendResponse Selects.selectEventTypeById [id]
                (fun rows =>
                   length <- Http.lift (JS.get rows "length") ;;
                   if JS.truthy length
                   then Http.lift (JS.index rows 0)
                   else Db.sendError (JS.str "Event type not found") 404 ;;;
                        Http.ret JS.undefined)
                200 ;;
    if Db.status result =? 200 then
      Db.respond_json (Db.status result) (Db.data result)
    else
      message <- Http.lift (JS.get (Db.data result) "message") ;;
      Db.sendError message (Db.status result)
  else
    Db.sendError (JS.str "Invalid event type ID") 400.

End EventTypesRoutes.

(* ================================================================== *)
(** ** The event route file (its deletion guard) *)
(* ================================================================== *)

Module EventRoutes.

(** DELETE /events/:id *)
Definition deleteEventById (params_id : Http.param) : Http.M unit :=
  let id := Db.number params_id in
  if negb (JS.truthy id) then
    Db.sendError (JS.str "You must indicate the event ID") 400
  else
    Http.try_catch
      (registrationsResult <-
         Db.sendResponse Sql.checkEventRegistrations [id] Http.ret 200 ;;
       registrations <- Http.lift (JS.index (Db.data registrationsResult) 0) ;;
       registrations_count <- Http.lift (JS.get registrations "count") ;;
       if JS.gt registrations_count 0 then
         Db.sendError (JS.str "Cannot delete event that has registered members") 400
       else
         deleteResult <-
           Db.sendResponse Sql.deleteEvent [id]
             (fun result =>
                affectedRows <- Http.lift (JS.get result "affectedRows") ;;
                if JS.truthy affectedRows
                then Http.ret (JS.obj [("count", affectedRows)])
                else Db.sendError (JS.str "Event not found") 404 ;;;
                     Http.ret JS.undefined)
             200 ;;
         if Db.status deleteResult =? 200 then
           Db.respond_json (Db.status deleteResult) (Db.data deleteResult)
         else
           message <- Http.lift (JS.get (Db.data deleteResult) "message") ;;
           Db.sendError message (Db.status deleteResult))
      (fun error => Db.sendError (JS.str "Error deleting event") 500).

(** GET /events *)
Definition getAllEvents : Http.M unit :=
  Http.try_catch
    (result <- Selects.sendResponse Selects.selectAllEvents [] Http.ret 200 ;;
     if Db.status result =? 200 then
       Db.respond_json (Db.status result) (Db.data result)
     else
       message <- Http.lift (JS.get (Db.data result) "message") ;;
       Db.sendError message (Db.status result))
    (fun error => Db.sendError (JS.str "Error fetching events") 500).

(** GET /events/:id *)
Definition getEventById (params_id : Http.param) : Http.M unit :=
  let id := Db.number params_id in
  if JS.truthy id then
    Http.try_catch
      (result <- Selects.sendResponse Selects.selectEventById [id]
                   (fun rows =>
                      length <- Http.lift (JS.get rows "length") ;;
                      if JS.truthy length
                      then Http.lift (JS.index rows 0)
                      else Db.sendError (JS.str "Event not found") 404 ;;;
                           Http.ret JS.undefined)
                   200 ;;
       if Db.status result =? 200 then
         Db.respond_json (Db.status result) (Db.data result)
       else
         message <- Http.lift (JS.get (Db.data result) "message") ;;
         Db.sendError message (Db.status result))
      (fun error => Db.sendError (JS.str "Error fetching event") 500)
  else
    Db.sendError (JS.str "Invalid event ID") 400.

End EventRoutes.

(* ================================================================== *)
(** ** The member route file *)
(* ================================================================== *)

Module MemberRoutes.

(** [v && v.length > 0] *)
Definition nonempty (v : JS.value) : Http.M bool :=
  if JS.truthy v then
    length <- Http.lift (JS.get v "length") ;;
    Http.ret (JS.gt length 0)
  else Http.ret false.

(** [preferredEventTypes.map(typeId => [memberId, typeId])] *)
Definition values_of (memberId preferredEventTypes : JS.value) : Http.M JS.value :=
  Http.lift (JS.array_map (fun typeId => JS.arr [memberId; typeId])
                          preferredEventTypes).

(** GET /members/:id.  [members] is the gateway's [{ status, data }]
    object: it has no [length] and no element [0]. *)
Definition getMember (params_id : Http.param) : Http.M unit :=
  let memberId := Db.number params_id in
  if negb (JS.truthy memberId) then
    Db.sendError (JS.str "Invalid member ID") 400
  else
    members <- Db.sendResponse Sql.getMemberById [memberId] Http.ret 200 ;;
    length <- Http.lift (JS.get (Db.object members) "length") ;;
    if negb (JS.truthy (Db.object members)) || JS.is_num length 0 then
      Db.sendError (JS.str "Member not found") 404
    else
      first <- Http.lift (JS.index (Db.object members) 0) ;;
      Db.respond_json 200 first.

(** POST /members *)
Definition createMember (body : Http.body) : Http.M unit :=
  let name := Http.body_name body in
  let preferredEventTypes := Http.body_preferredEventTypes body in
  if negb (JS.truthy name) then
    Db.sendError (JS.str "Name is required") 400
  else
    Http.try_catch
      (result <- Db.sendResponse Sql.insertMember [name] Http.ret 200 ;;
       if negb (Db.status result =? 200) then
         message <- Http.lift (JS.get (Db.data result) "message") ;;
         Db.sendError (JS.or message (JS.str "Failed to create member"))
                      (Db.status result)
       else
         memberId <- Http.lift (JS.get (Db.data result) "insertId") ;;
         some <- nonempty preferredEventTypes ;;
         failed <-
           (if some : bool then
              values <- values_of memberId preferredEventTypes ;;
              insertEventTypesResult <-
                Db.sendResponse Sql.insertPreferredEventTypes [values] Http.ret 200 ;;
              if negb (Db.status insertEventTypesResult =? 200) then
                message <- Http.lift
                             (JS.get (Db.data insertEventTypesResult) "message") ;;
                Db.sendError
                  (JS.or message (JS.str "Failed to insert preferred event types"))
                  (Db.status insertEventTypesResult) ;;;
                Http.ret true
              else Http.ret false
            else Http.ret false) ;;
         if failed : bool then Http.ret tt
         else
           Db.respond_json 200
             (JS.obj [("message", JS.str "Member created successfully");
                      ("member",
                       JS.obj [("id", memberId); ("name", name);
                               ("preferredEventTypes",
                                JS.or preferredEventTypes (JS.arr []))])]))
      (fun error => Db.sendError (JS.str "Error creating member") 500).

(** PUT /members/:id *)
Definition updateMemberInfo (params_id : Http.param) (body : Http.body)
  : Http.M unit :=
  let memberId := Db.number params_id in
  let name := Http.body_name body in
  let preferredEventTypes := Http.body_preferredEventTypes body in
  if negb (JS.truthy name) then
    Db.sendError (JS.str "Name is required") 400
  else
    result <- Db.sendResponse Sql.updateMember [name; memberId] Http.ret 200 ;;
    if negb (JS.truthy (Db.object result))
       || negb (JS.truthy (JS.num (Db.status result))) then
      Db.sendError (JS.str "Unexpected error occurred") 500
    else if Db.status result =? 404 then
      Db.sendError (JS.str "Member not found") 404
    else
      (* Remove old preferences and insert new ones *)
      _ <- Db.sendResponse Sql.deletePreferredEventTypes [memberId]
             (fun _ => Http.ret (JS.obj [])) 200 ;;
      some <- nonempty preferredEventTypes ;;
      (if some : bool then
         values <- values_of memberId preferredEventTypes ;;
         _ <- Db.sendResponse Sql.insertPreferredEventTypes [values]
                (fun _ => Http.ret (JS.obj [])) 200 ;;
         Http.ret tt
       else Http.ret tt) ;;;
      Db.respond_json (Db.status result)
        (JS.obj [("id", memberId); ("name", name);
                 ("preferredEventTypes", JS.or preferredEventTypes (JS.arr []))]).

(** DELETE /members/:id.  [existingMember] and [result] are gateway
    objects: the first has no [length], the second no [affectedRows]. *)
Definition deleteMemberById (params_id : Http.param) : Http.M unit :=
  let memberId := Http.Number params_id in
  if JS.isNaN memberId then
    Db.sendError (JS.str "Invalid member ID") 400
  else
    Http.try_catch
      (existingMember <- Db.sendResponse Sql.getMemberById [memberId] Http.ret 200 ;;
       length <- Http.lift (JS.get (Db.object existingMember) "length") ;;
       if negb (JS.truthy (Db.object existingMember)) || JS.is_num length 0 then
         Db.sendError (JS.str "Member not found") 404
       else
         (* Delete the member's events and preferences *)
         _ <- Db.sendResponse Sql.deleteMemberEvents [memberId]
                (fun _ => Http.ret (JS.obj [])) 200 ;;
         _ <- Db.sendResponse Sql.deletePreferredEventTypes [memberId]
                (fun _ => Http.ret (JS.obj [])) 200 ;;
         result <- Db.sendResponse Sql.deleteMember [memberId] Http.ret 200 ;;
         affectedRows <- Http.lift (JS.get (Db.object result) "affectedRows") ;;
         if negb (JS.truthy (Db.object result)) || negb (JS.truthy affectedRows) then
           Db.sendError (JS.str "Member not found") 404
         else
           Http.write {| Http.code := 204; Http.content := Http.empty |})
      (fun error => Db.sendError (JS.str "Error deleting member") 500).

(** GET /members.  [members] is the gateway's [{ status, data }]
    object; it is what goes out as the body. *)
Definition getMembers : Http.M unit :=
  Http.try_catch
    (members <- Selects.sendResponse Selects.getAllMembers [] Http.ret 200 ;;
     length <- Http.lift (JS.get (Db.object members) "length") ;;
     if negb (JS.truthy (Db.object members)) || JS.is_num length 0 then
       Db.respond_json 200 (JS.arr [])
     else
       Db.respond_json 200 (Db.object members))
    (fun error => Db.sendError (JS.str "Error fetching members") 500).

End MemberRoutes.

(* ================================================================== *)
(** ** The member-event route file *)
(* ================================================================== *)

Module MemberEventRoutes.

(** Register a member to an event.  Each [const [x] = await
    sendResponse(...)] destructures the gateway's [{ status, data }]
    object as an array. *)
Definition registerMemberToEvent (params_memberId params_eventId : Http.param)
  : Http.M unit :=
  let memberId := Db.number params_memberId in
  let eventId := Db.number params_eventId in
  if negb (JS.truthy memberId) || negb (JS.truthy eventId) then
    Db.sendError (JS.str "Invalid member or event ID") 400
  else
    (* Check if the member exists in the database *)
    r1 <- Db.sendResponse Sql.checkMemberExists [memberId] Http.ret 200 ;;
    members <- Http.lift (JS.destructure_first (Db.object r1)) ;;
    members_length <- Http.lift (JS.get members "length") ;;
    if negb (JS.truthy members_length) then
      Db.sendError (JS.str "Member not found") 404
    else
      (* Check if the event exists in the database *)
      r2 <- Db.sendResponse Sql.checkEventExists [eventId] Http.ret 200 ;;
      events <- Http.lift (JS.destructure_first (Db.object r2)) ;;
      events_length <- Http.lift (JS.get events "length") ;;
      if negb (JS.truthy events_length) then
        Db.sendError (JS.str "Event not found") 404
      else
        (* Check if the member prefers the event's type *)
        event <- Http.lift (JS.index events 0) ;;
        type_id <- Http.lift (JS.get event "type_id") ;;
        r3 <- Db.sendResponse Sql.checkMemberPreference [memberId; type_id]
                Http.ret 200 ;;
        preferences <- Http.lift (JS.destructure_first (Db.object r3)) ;;
        preferences_count <- Http.lift (JS.get preferences "count") ;;
        if JS.is_num preferences_count 0 then
          Db.sendError (JS.str "Member does not prefer this event type") 400
        else
          (* Register the member to the event *)
          _ <- Db.sendResponse Sql.registerMemberEvent [memberId; eventId]
                 (fun _ => Http.ret (JS.obj [("success", JS.boolean true)])) 201 ;;
          Http.ret tt.

(** Unregister a member from an event. *)
Definition unregisterMemberFromEvent (params_memberId params_eventId : Http.param)
  : Http.M unit :=
  let memberId := Db.number params_memberId in
  let eventId := Db.number params_eventId in
  if negb (JS.truthy memberId) || negb (JS.truthy eventId) then
    Db.sendError (JS.str "Invalid member or event ID") 400
  else
    _ <- Db.sendResponse Sql.deleteMemberEvent [memberId; eventId]
           (fun result =>
              affectedRows <- Http.lift (JS.get result "affectedRows") ;;
              if JS.truthy affectedRows
              then Http.ret (JS.obj [("success", JS.boolean true)])
              else Db.sendError (JS.str "Registration not found") 404 ;;;
                   Http.ret JS.undefined)
           200 ;;
    Http.ret tt.

End MemberEventRoutes.

(* ================================================================== *)
(** ** server/server.js: the route table *)
(* ================================================================== *)

Module Server.

Inductive method := GET | POST | PUT | DELETE.

(** A piece of a route path: fixed text, or a [:name] parameter. *)
Inductive segment :=
| fixed (s : string)
| parameter (name : string).

(** The handlers [server.js] imports. *)
Inductive handler :=
| getAllEvents | getEventById | createEvent | updateEventById | deleteEventById
| getAllEventTypes | getEventTypeById | createEventType | updateEventTypeById
| deleteEventTypeById
| getMembers | getMember | createMember | updateMemberInfo | deleteMemberById.

Record route := { verb : method; path : list segment; target : handler }.

(** The [app.get / app.post / app.put / app.delete] calls, in order. *)
Definition app : list route :=
  [ {| verb := GET;    path := [fixed "events"];                 target := getAllEvents |};
    {| verb := GET;    path := [fixed "events"; parameter "id"]; target := getEventById |};
    {| verb := POST;   path := [fixed "events"];                 target := createEvent |};
    {| verb := PUT;    path := [fixed "events"; parameter "id"]; target := updateEventById |};
    {| verb := DELETE; path := [fixed "events"; parameter "id"]; target := deleteEventById |};

    {| verb := GET;    path := [fixed "event-types"];                 target := getAllEventTypes |};
    {| verb := GET;    path := [fixed "event-types"; parameter "id"]; target := getEventTypeById |};
    {| verb := POST;   path := [fixed "event-types"];                 target := createEventType |};
    {| verb := PUT;    path := [fixed "event-types"; parameter "id"]; target := updateEventTypeById |};
    {| verb := DELETE; path := [fixed "event-types"; parameter "id"]; target := deleteEventTypeById |};

    {| verb := GET;    path := [fixed "members"];                 target := getMembers |};
    {| verb := GET;    path := [fixed "members"; parameter "id"]; target := getMember |};
    {| verb := POST;   path := [fixed "members"];                 target := createMember |};
    {| verb := PUT;    path := [fixed "members"; parameter "id"]; target := updateMemberInfo |};
    {| verb := DELETE; path := [fixed "members"; parameter "id"]; target := deleteMemberById |} ].

Definition method_eqb (a b : method) : bool :=
  match a, b with
  | GET, GET | POST, POST | PUT, PUT | DELETE, DELETE => true
  | _, _ => false
  end.

(** A route path matches a request path (split at its slashes) when
    they have the same number of pieces, fixed text is equal, and each
    parameter stands for one non-empty piece. *)
Fixpoint matches (pattern : list segment) (request : list string) : bool :=
  match pattern, request with
  | [], [] => true
  | fixed s :: pattern', piece :: request' =>
      (s =? piece)%string && matches pattern' request'
  | parameter _ :: pattern', piece :: request' =>
      negb (piece =? "")%string && matches pattern' request'
  | _, _ => false
  end.

(** The handler the first matching route names; [None] when the
    request falls through the table (the framework then answers 404). *)
Definition dispatch (m : method) (request : list string) : option handler :=
  match find (fun r => method_eqb (verb r) m && matches (path r) request) app with
  | Some r => Some (target r)
  | None => None
  end.

End Server.

(* ================================================================== *)
(** ** The in-browser stores (MemberStoreClass, EventStoreClass) *)
(* ================================================================== *)

Module Arrays.

(** [array.findIndex(p)], with [None] for -1. *)
Fixpoint findIndex {A} (p : A -> bool) (l : list A) : option nat :=
  match l with
  | [] => None
  | x :: rest =>
      if p x then Some O
      else match findIndex p rest with
           | Some i => Some (S i)
           | None => None
           end
  end.

(** [array.splice(index, 1)]: the array without the element at [index]. *)
Fixpoint splice {A} (index : nat) (l : list A) : list A :=
  match l, index with
  | [], _ => []
  | _ :: rest, O => rest
  | x :: rest, S i => x :: splice i rest
  end.

(** [array.forEach((x, idx) => f(x, idx))] for an [f] that updates [x];
    [idx] is the index of the first element of [l]. *)
Fixpoint forEach {A} (f : A -> Z -> A) (idx : Z) (l : list A) : list A :=
  match l with
  | [] => []
  | x :: rest => f x idx :: forEach f (idx + 1) rest
  end.

(** The numbers from, from + 1, ... (n of them). *)
Fixpoint range (from : Z) (n : nat) : list Z :=
  match n with
  | O => []
  | S n' => from :: range (from + 1) n'
  end.

End Arrays.

Module Strings.

(** Strings are kept as their UTF-8 bytes.  The white space that
    [trim] removes (WhiteSpace and LineTerminator of ECMAScript) is:
    one byte, U+0009..U+000D and U+0020; two bytes, U+00A0; three
    bytes, U+1680, U+2000..U+200A, U+2028, U+2029, U+202F, U+205F,
    U+3000 and U+FEFF. *)
Definition space1 (a : nat) : bool :=
  ((9 <=? a) && (a <=? 13))%nat || (a =? 32)%nat.

Definition space2 (a b : nat) : bool :=
  ((a =? 194) && (b =? 160))%nat.

Definition space3 (a b c : nat) : bool :=
  ((a =? 225) && (b =? 154) && (c =? 128))%nat
  || ((a =? 226) && (b =? 128)
      && (((128 <=? c) && (c <=? 138)) || (c =? 168) || (c =? 169) || (c =? 175)))%nat
  || ((a =? 226) && (b =? 129) && (c =? 159))%nat
  || ((a =? 227) && (b =? 128) && (c =? 128))%nat
  || ((a =? 239) && (b =? 187) && (c =? 191))%nat.

(** [s.trim().length === 0]: the string is white space from end to end. *)
Fixpoint blank (s : string) : bool :=
  match s with
  | EmptyString => true
  | String a s1 =>
      if space1 (Ascii.nat_of_ascii a) then blank s1
      else
        match s1 with
        | EmptyString => false
        | String b s2 =>
            if space2 (Ascii.nat_of_ascii a) (Ascii.nat_of_ascii b) then blank s2
            else
              match s2 with
              | EmptyString => false
              | String c s3 =>
                  if space3 (Ascii.nat_of_ascii a) (Ascii.nat_of_ascii b) (Ascii.nat_of_ascii c)
                  then blank s3
                  else false
              end
        end
  end.

End Strings.

(** [Set] objects of numbers: the elements in insertion order, each
    once. *)
Module Sets.

Definition has (x : Z) (s : list Z) : bool := existsb (fun y => y =? x) s.

Definition add (x : Z) (s : list Z) : list Z :=
  if has x s then s else s ++ [x].

Definition delete (x : Z) (s : list Z) : list Z :=
  filter (fun y => negb (y =? x)) s.

(** [new Set(array)] *)
Definition of_array (array : list Z) : list Z :=
  fold_left (fun s x => add x s) array [].

End Sets.

(** The name check of src/models/EventType.js. *)
Module EventType.

(** [EventType.validate(name)]: [name && name.trim().length > 0]. *)
Definition validate (name : string) : JS.value :=
  if JS.truthy (JS.str name)
  then JS.boolean (negb (Strings.blank name))
  else JS.str name.

End EventType.

Module MemberStore.

Record Member := {
  id : Z;
  name : string;
  preferredEventTypes : list Z
}.

(** The store object, and the item it keeps under the key 'members'
    of localStorage: [{ lastId, members }]. *)
Record MemberStoreClass := {
  members : list Member;
  lastId : Z;
  localStorage : option (Z * list Member)
}.

Definition saveToStorage (s : MemberStoreClass) : MemberStoreClass :=
  {| members := members s; lastId := lastId s;
     localStorage := Some (lastId s, members s) |}.

(** [member.id = idx + 1] *)
Definition set_id (member : Member) (idx : Z) : Member :=
  {| id := idx + 1; name := name member;
     preferredEventTypes := preferredEventTypes member |}.

Definition delete (id' : Z) (s : MemberStoreClass) : JS.error + MemberStoreClass :=
  match Arrays.findIndex (fun m => id m =? id') (members s) with
  | None => inl (JS.Error "Membro não encontrado")
  | Some index =>
      let spliced := Arrays.splice index (members s) in
      let renumbered := Arrays.forEach set_id 0 spliced in
      inr (saveToStorage {| members := renumbered;
                            lastId := Z.of_nat (List.length renumbered);
                            localStorage := localStorage s |})
  end.

(** [new Member(id, name)] *)
Definition new_Member (id' : Z) (name' : string) : Member :=
  {| id := id'; name := name'; preferredEventTypes := [] |}.

(** [Member.validate(name)]: throws, or returns [true]. *)
Definition validate (name' : string) : JS.error + bool :=
  if negb (JS.truthy (JS.str name')) || Strings.blank name'
  then inl (JS.Error "Nome do membro é obrigatório")
  else inr true.

Definition addPreferredEventType (typeId : Z) (member : Member) : Member :=
  {| id := id member; name := name member;
     preferredEventTypes := Sets.add typeId (preferredEventTypes member) |}.

Definition removePreferredEventType (typeId : Z) (member : Member) : Member :=
  {| id := id member; name := name member;
     preferredEventTypes := Sets.delete typeId (preferredEventTypes member) |}.

(** [Member.fromJSON(json)]: the preferences go through [new Set]. *)
Definition fromJSON (json : Member) : Member :=
  {| id := id json; name := name json;
     preferredEventTypes := Sets.of_array (preferredEventTypes json) |}.

(** [findById(id)]: the first member with that id, if any. *)
Definition findById (id' : Z) (s : MemberStoreClass) : option Member :=
  find (fun m => id m =? id') (members s).

(** [getAll()]: a copy of the array. *)
Definition getAll (s : MemberStoreClass) : list Member := members s.

(** [add(name)]: what it returns or throws, and the store after it. *)
Definition add (name' : string) (s : MemberStoreClass)
  : (JS.error + Member) * MemberStoreClass :=
  match validate name' with
  | inl e => (inl e, s)
  | inr _ =>
      let member := new_Member (lastId s + 1) name' in
      (inr member,
       saveToStorage {| members := members s ++ [member];
                        lastId := lastId s + 1;
                        localStorage := localStorage s |})
  end.

(** The array once the object that [find] returned has been changed in
    place: the first element that satisfies [p] becomes [changed]. *)
Fixpoint in_place (p : Member -> bool) (changed : Member) (l : list Member)
  : list Member :=
  match l with
  | [] => []
  | m :: rest => if p m then changed :: rest else m :: in_place p changed rest
  end.

(** [update(id, name, preferredTypes)]; [preferredTypes] is [None] when
    the caller leaves the argument out. *)
Definition update (id' : Z) (name' : string) (preferredTypes : option (list Z))
           (s : MemberStoreClass) : (JS.error + Member) * MemberStoreClass :=
  match findById id' s with
  | None => (inl (JS.Error "Membro não encontrado"), s)
  | Some member =>
      match validate name' with
      | inl e => (inl e, s)
      | inr _ =>
          (* member.name = name; member.preferredEventTypes.clear(); *)
          let cleared :=
            {| id := id member; name := name'; preferredEventTypes := [] |} in
          match preferredTypes with
          | None =>
              (inl (JS.TypeError "Cannot read properties of undefined"),
               {| members := in_place (fun m => id m =? id') cleared (members s);
                  lastId := lastId s;
                  localStorage := localStorage s |})
          | Some types =>
              let updated :=
                fold_left (fun m typeId => addPreferredEventType typeId m)
                          types cleared in
              (inr updated,
               saveToStorage
                 {| members := in_place (fun m => id m =? id') updated (members s);
                    lastId := lastId s;
                    localStorage := localStorage s |})
          end
      end
  end.

(** [new MemberStoreClass()] over what localStorage holds under
    'members': the saved store, or the two default members. *)
Definition construct (stored : option (Z * list Member)) : MemberStoreClass :=
  match stored with
  | Some (lastId', members') =>
      {| members := map fromJSON members'; lastId := lastId';
         localStorage := stored |}
  | None =>
      snd (add "Maria Santos"
               (snd (add "João Silva"
                         {| members := []; lastId := 0; localStorage := None |})))
  end.

(** The numbering the store relies on: the ids are 1..n in list order
    and [lastId] is n. *)
Definition numbered (s : MemberStoreClass) : Prop :=
  map id (members s) = Arrays.range 1 (List.length (members s))
  /\ lastId s = Z.of_nat (List.length (members s)).

End MemberStore.

Module EventStore.

Record Event := {
  id : Z;
  typeId : Z;
  name : string;
  date : Z;                     (* the Date, as its time value *)
  participants : list Z
}.

(** The store object, and the item it keeps under the key 'events'
    of localStorage: [{ lastId, events }]. *)
Record EventStoreClass := {
  events : list Event;
  lastId : Z;
  localStorage : option (Z * list Event)
}.

Definition saveToStorage (s : EventStoreClass) : EventStoreClass :=
  {| events := events s; lastId := lastId s;
     localStorage := Some (lastId s, events s) |}.

(** [event.id = idx + 1] *)
Definition set_id (event : Event) (idx : Z) : Event :=
  {| id := idx + 1; typeId := typeId event; name := name event;
     date := date event; participants := participants event |}.

Definition delete (id' : Z) (s : EventStoreClass) : JS.error + EventStoreClass :=
  match Arrays.findIndex (fun e => id e =? id') (events s) with
  | None => inl (JS.Error "Evento não encontrado")
  | Some index =>
      let spliced := Arrays.splice index (events s) in
      let renumbered := Arrays.forEach set_id 0 spliced in
      inr (saveToStorage {| events := renumbered;
                            lastId := Z.of_nat (List.length renumbered);
                            localStorage := localStorage s |})
  end.

Definition addParticipant (memberId : Z) (event : Event) : Event :=
  {| id := id event; typeId := typeId event; name := name event;
     date := date event;
     participants := Sets.add memberId (participants event) |}.

Definition removeParticipant (memberId : Z) (event : Event) : Event :=
  {| id := id event; typeId := typeId event; name := name event;
     date := date event;
     participants := Sets.delete memberId (participants event) |}.

Definition hasParticipant (memberId : Z) (event : Event) : bool :=
  Sets.has memberId (participants event).

(** [findById(id)]: the first event with that id, if any. *)
Definition findById (id' : Z) (s : EventStoreClass) : option Event :=
  find (fun e => id e =? id') (events s).

(** [getAvailableForMember(memberId, preferredTypes)], with the time
    value [now] of the [new Date()] it takes. *)
Definition getAvailableForMember (now : Z) (memberId : Z) (preferredTypes : list Z)
           (s : EventStoreClass) : list Event :=
  filter (fun event =>
            (now <? date event)
            && existsb (fun t => t =? typeId event) preferredTypes
            && negb (hasParticipant memberId event))
         (events s).

End EventStore.

(* ================================================================== *)
(** ** Sample data *)
(* ================================================================== *)

Module Sample.

(** One event type "Passeio" (id 1), one event "Ride" of that type
    (id 1), one member "Ana" (id 1); no preference, no registration. *)
Definition club : Schema.database :=
  {| Schema.event_types := [{| Schema.et_id := 1; Schema.et_name := "Passeio" |}];
     Schema.event_types_auto := 2;
     Schema.members := [{| Schema.m_id := 1; Schema.m_name := "Ana" |}];
     Schema.members_auto := 2;
     Schema.events := [{| Schema.e_id := 1; Schema.e_type_id := 1;
                          Schema.e_name := "Ride"; Schema.e_date := "2025-06-01" |}];
     Schema.events_auto := 2;
     Schema.member_preferred_event_types := [];
     Schema.member_events := [] |}.

(** The same club once Ana prefers "Passeio". *)
Definition club_with_preference : Schema.database :=
  {| Schema.event_types := Schema.event_types club;
     Schema.event_types_auto := 2;
     Schema.members := Schema.members club;
     Schema.members_auto := 2;
     Schema.events := Schema.events club;
     Schema.events_auto := 2;
     Schema.member_preferred_event_types := [(1, 1)];
     Schema.member_events := [] |}.

(** The same club once Ana is also registered for "Ride". *)
Definition club_registered : Schema.database :=
  {| Schema.event_types := Schema.event_types club;
     Schema.event_types_auto := 2;
     Schema.members := Schema.members club;
     Schema.members_auto := 2;
     Schema.events := Schema.events club;
     Schema.events_auto := 2;
     Schema.member_preferred_event_types := [(1, 1)];
     Schema.member_events := [(1, 1)] |}.

(** A second event type "Treino" (id 2) that nothing refers to. *)
Definition club_two_types : Schema.database :=
  {| Schema.event_types := [{| Schema.et_id := 1; Schema.et_name := "Passeio" |};
                            {| Schema.et_id := 2; Schema.et_name := "Treino" |}];
     Schema.event_types_auto := 3;
     Schema.members := Schema.members club;
     Schema.members_auto := 2;
     Schema.events := Schema.events club;
     Schema.events_auto := 2;
     Schema.member_preferred_event_types := [(1, 1)];
     Schema.member_events := [(1, 1)] |}.

(** Request bodies: no name at all, a name of three blanks, a new name
    without a preference list, and a new name with one. *)
Definition no_name : Http.body :=
  {| Http.name := None; Http.preferredEventTypes := None |}.
Definition blank_name : Http.body :=
  {| Http.name := Some "   "; Http.preferredEventTypes := None |}.
Definition new_name : Http.body :=
  {| Http.name := Some "Ana Costa"; Http.preferredEventTypes := None |}.

(** In-browser stores with three entities each. *)
Definition three_members : MemberStore.MemberStoreClass :=
  {| MemberStore.members :=
       [{| MemberStore.id := 1; MemberStore.name := "João Silva";
           MemberStore.preferredEventTypes := [] |};
        {| MemberStore.id := 2; MemberStore.name := "Maria Santos";
           MemberStore.preferredEventTypes := [1] |};
        {| MemberStore.id := 3; MemberStore.name := "Rui Pires";
           MemberStore.preferredEventTypes := [1; 2] |}];
     MemberStore.lastId := 3;
     MemberStore.localStorage := None |}.

Definition three_events : EventStore.EventStoreClass :=
  {| EventStore.events :=
       [{| EventStore.id := 1; EventStore.typeId := 1;
           EventStore.name := "Passeio na Cidade"; EventStore.date := 1750000000000;
           EventStore.participants := [1] |};
        {| EventStore.id := 2; EventStore.typeId := 2;
           EventStore.name := "Competição Regional"; EventStore.date := 1751000000000;
           EventStore.participants := [] |};
        {| EventStore.id := 3; EventStore.typeId := 1;
           EventStore.name := "Passeio na Serra"; EventStore.date := 1752000000000;
           EventStore.participants := [2] |}];
     EventStore.lastId := 3;
     EventStore.localStorage := None |}.

(** The same stores after [delete(2)] on the members and [delete(1)] on
    the events. *)
Definition two_members : MemberStore.MemberStoreClass :=
  {| MemberStore.members :=
       [{| MemberStore.id := 1; MemberStore.name := "João Silva";
           MemberStore.preferredEventTypes := [] |};
        {| MemberStore.id := 2; MemberStore.name := "Rui Pires";
           MemberStore.preferredEventTypes := [1; 2] |}];
     MemberStore.lastId := 2;
     MemberStore.localStorage :=
       Some (2,
             [{| MemberStore.id := 1; MemberStore.name := "João Silva";
                 MemberStore.preferredEventTypes := [] |};
              {| MemberStore.id := 2; MemberStore.name := "Rui Pires";
                 MemberStore.preferredEventTypes := [1; 2] |}]) |}.

Definition two_events : EventStore.EventStoreClass :=
  {| EventStore.events :=
       [{| EventStore.id := 1; EventStore.typeId := 2;
           EventStore.name := "Competição Regional"; EventStore.date := 1751000000000;
           EventStore.participants := [] |};
        {| EventStore.id := 2; EventStore.typeId := 1;
           EventStore.name := "Passeio na Serra"; EventStore.date := 1752000000000;
           EventStore.participants := [2] |}];
     EventStore.lastId := 2;
     EventStore.localStorage :=
       Some (2,
             [{| EventStore.id := 1; EventStore.typeId := 2;
                 EventStore.name := "Competição Regional";
                 EventStore.date := 1751000000000; EventStore.participants := [] |};
              {| EventStore.id := 2; EventStore.typeId := 1;
                 EventStore.name := "Passeio na Serra";
                 EventStore.date := 1752000000000;
                 EventStore.participants := [2] |}]) |}.



End Sample.

(* ================================================================== *)
(** * Properties *)
(* ================================================================== *)

(** ** The gateway, case by case *)

(** The gateway is reasoned about through the four lemmas below. *)
Arguments Db.sendResponse : simpl never.

Section Gateway.

Variables (query : Sql.query) (params : list JS.value).
Variables (transform : JS.value -> Http.M JS.value) (status : Z).
Variable w : Http.world.

(** The driver throws: [execute] swallows the error, and the gateway
    sees an empty result. *)
Lemma sendResponse_driver_error (e : JS.error) :
  Sql.driver query params (Http.db w) = inl e ->
  Db.sendResponse query params transform status w
  = (inr {| Db.status := 404; Db.data := Db.message "No data found" |}, w).
Proof.
  intros H.
  unfold Db.sendResponse, Http.try_catch, Http.bind, Db.execute.
  rewrite H. reflexivity.
Qed.

(** A write statement: the header decides, [transform] is not called. *)
Lemma sendResponse_write (affectedRows insertId : Z) (d' : Schema.database) :
  Sql.driver query params (Http.db w)
  = inr (Schema.header affectedRows insertId, d') ->
  Db.sendResponse query params transform status w
  = (inr (if affectedRows =? 0
          then {| Db.status := 404;
                  Db.data := Db.message "No data found or affected" |}
          else {| Db.status := status;
                  Db.data := Db.message (Db.rows_affected (JS.num affectedRows)) |}),
     {| Http.db := d'; Http.response := Http.response w |}).
Proof.
  intros H.
  unfold Db.sendResponse, Http.try_catch, Http.bind, Db.execute.
  rewrite H. cbn. destruct (affectedRows =? 0); reflexivity.
Qed.

(** A read that finds nothing. *)
Lemma sendResponse_no_rows (d' : Schema.database) :
  Sql.driver query params (Http.db w) = inr (JS.arr [], d') ->
  Db.sendResponse query params transform status w
  = (inr {| Db.status := 404; Db.data := Db.message "No data found" |},
     {| Http.db := d'; Http.response := Http.response w |}).
Proof.
  intros H.
  unfold Db.sendResponse, Http.try_catch, Http.bind, Db.execute.
  rewrite H. reflexivity.
Qed.

(** A read that finds rows: they go through [transform]. *)
Lemma sendResponse_rows (row : JS.value) (rows : list JS.value)
      (d' : Schema.database) :
  Sql.driver query params (Http.db w) = inr (JS.arr (row :: rows), d') ->
  Db.sendResponse query params transform status w
  = match transform (JS.arr (row :: rows))
            {| Http.db := d'; Http.response := Http.response w |} with
    | (inr transformed, w') =>
        (inr {| Db.status := status; Db.data := transformed |}, w')
    | (inl _, w') =>
        (inr {| Db.status := 500;
                Db.data := JS.obj [("error", JS.str "Database query failed")] |},
         w')
    end.
Proof.
  intros H.
  unfold Db.sendResponse, Http.try_catch, Http.bind, Db.execute.
  rewrite H. cbn.
  replace (Z.pos (Pos.of_succ_nat (List.length rows)) =? 0) with false
    by (symmetry; apply Z.eqb_neq; lia).
  destruct (transform _ _) as [[err | v] w']; reflexivity.
Qed.

End Gateway.

Lemma world_eta (w : Http.world) :
  {| Http.db := Http.db w; Http.response := Http.response w |} = w.
Proof. destruct w; reflexivity. Qed.

(** A SELECT handed back as it is ([transform] is [rows => rows]). *)
Lemma sendResponse_select (query : Sql.query) (params : list JS.value)
      (status : Z) (w : Http.world) (rows : list JS.value) :
  Sql.driver query params (Http.db w) = inr (JS.arr rows, Http.db w) ->
  Db.sendResponse query params Http.ret status w
  = (inr (match rows with
          | [] => {| Db.status := 404; Db.data := Db.message "No data found" |}
          | _ => {| Db.status := status; Db.data := JS.arr rows |}
          end), w).
Proof.
  intros H. destruct rows as [| row rows].
  - rewrite (sendResponse_no_rows _ _ _ _ _ _ H). now rewrite world_eta.
  - rewrite (sendResponse_rows _ _ _ _ _ _ _ _ H). cbn. now rewrite world_eta.
Qed.

(** ** Tables as lists *)

Section Tables.

Context {A : Type}.
Variable p : A -> bool.

Lemma count_nonneg (l : list A) : 0 <= Schema.count p l.
Proof. unfold Schema.count. lia. Qed.

Lemma count_zero_iff (l : list A) :
  Schema.count p l = 0 <-> forall x, In x l -> p x = false.
Proof.
  unfold Schema.count. induction l as [| a l IH]; cbn.
  - split; [intros _ x [] | reflexivity].
  - destruct (p a) eqn:Ha; cbn.
    + split; [lia | intros H; specialize (H a (or_introl eq_refl)); congruence].
    + rewrite IH. split.
      * intros H x [<- | Hx]; auto.
      * intros H x Hx; apply H; now right.
Qed.

Lemma existsb_false_iff (l : list A) :
  existsb p l = false <-> forall x, In x l -> p x = false.
Proof.
  induction l as [| a l IH]; cbn.
  - split; [intros _ x [] | reflexivity].
  - rewrite orb_false_iff, IH. split.
    + intros [Ha H] x [<- | Hx]; auto.
    + intros H; split; [apply H; now left | intros x Hx; apply H; now right].
Qed.

Lemma count_zero_existsb (l : list A) :
  Schema.count p l = 0 <-> existsb p l = false.
Proof. now rewrite count_zero_iff, existsb_false_iff. Qed.

Lemma existsb_count_eqb (l : list A) :
  existsb p l = true -> (Schema.count p l =? 0) = false.
Proof.
  intros H. apply Z.eqb_neq. intros H0.
  apply count_zero_existsb in H0. congruence.
Qed.

Lemma filter_negb_all (l : list A) :
  (forall x, In x l -> p x = false) -> filter (fun x => negb (p x)) l = l.
Proof.
  induction l as [| a l IH]; cbn; intros H; [reflexivity |].
  rewrite (H a (or_introl eq_refl)); cbn.
  f_equal. apply IH. intros x Hx; apply H; now right.
Qed.

Lemma filter_twice (l : list A) : filter p (filter p l) = filter p l.
Proof.
  induction l as [| a l IH]; cbn; [reflexivity |].
  destruct (p a) eqn:Ha; cbn; [rewrite Ha; f_equal |]; exact IH.
Qed.

Lemma existsb_filter_negb (l : list A) :
  existsb p (filter (fun x => negb (p x)) l) = false.
Proof.
  apply existsb_false_iff. intros x Hx.
  apply filter_In in Hx. destruct Hx as [_ Hx].
  now apply negb_true_iff in Hx.
Qed.

Lemma map_if_none (f : A -> A) (l : list A) :
  (forall x, In x l -> p x = false) ->
  map (fun x => if p x then f x else x) l = l.
Proof.
  induction l as [| a l IH]; cbn; intros H; [reflexivity |].
  rewrite (H a (or_introl eq_refl)).
  f_equal. apply IH. intros x Hx; apply H; now right.
Qed.

End Tables.

(** ** The member-event handlers *)

(** Whatever the database holds, a call with two usable ids stops at the
    first [const [members] = ...]: the gateway's object is not iterable. *)
Lemma registerMemberToEvent_stops (m e : Z) (w : Http.world) :
  m <> 0 -> e <> 0 ->
  MemberEventRoutes.registerMemberToEvent (Http.Numeral m) (Http.Numeral e) w
  = (inl (JS.TypeError "object is not iterable"), w).
Proof.
  intros Hm He.
  unfold MemberEventRoutes.registerMemberToEvent. cbn.
  apply Z.eqb_neq in Hm, He. rewrite Hm, He. cbn.
  unfold Http.bind.
  erewrite sendResponse_select by reflexivity.
  reflexivity.
Qed.

(** C1.  The specification states: for a member [m] and an event [e]
    that exist, registration is refused with status 400 when [m] has no
    preference row for the type of [e], and succeeds, inserting the row
    [(m, e)], once the preference exists.
    The handler does neither.  With or without the preference row, the
    call throws a TypeError at its first destructuring, before the
    preference is looked at: nothing is written to the response and the
    database is left as it was (no registration row is inserted). *)
Theorem registerMemberToEvent_never_reaches_preference_check :
  forall (d : Schema.database) (m e : Z),
    m <> 0 -> e <> 0 ->
    Schema.has_member m d = true ->
    Schema.has_event e d = true ->
    Http.run (MemberEventRoutes.registerMemberToEvent (Http.Numeral m) (Http.Numeral e)) d
    = (inl (JS.TypeError "object is not iterable"),
       {| Http.db := d; Http.response := [] |}).
Proof.
  intros d m e Hm He _ _. unfold Http.run.
  now apply registerMemberToEvent_stops.
Qed.

Lemma registerMemberToEvent_never_reaches_preference_check_witness :
  Schema.has_preference 1 1 Sample.club = false
  /\ Http.run (MemberEventRoutes.registerMemberToEvent (Http.Numeral 1) (Http.Numeral 1))
              Sample.club
     = (inl (JS.TypeError "object is not iterable"),
        {| Http.db := Sample.club; Http.response := [] |})
  /\ Schema.has_preference 1 1 Sample.club_with_preference = true
  /\ Http.run (MemberEventRoutes.registerMemberToEvent (Http.Numeral 1) (Http.Numeral 1))
              Sample.club_with_preference
     = (inl (JS.TypeError "object is not iterable"),
        {| Http.db := Sample.club_with_preference; Http.response := [] |}).
Proof.
  split; [reflexivity |].
  split; [apply (registerMemberToEvent_never_reaches_preference_check Sample.club 1 1);
          [lia | lia | reflexivity | reflexivity] |].
  split; [reflexivity |].
  apply (registerMemberToEvent_never_reaches_preference_check
           Sample.club_with_preference 1 1);
    [lia | lia | reflexivity | reflexivity].
Defined.

(** C2.  The specification states: when the registration row [(m, e)]
    already exists, a second registration is refused with a conflict
    reply ("already registered") and the registration table stays as it
    was.
    The table does stay as it was, but no reply is produced: the call
    throws the same TypeError before any INSERT is attempted. *)
Theorem registerMemberToEvent_twice_throws :
  forall (d : Schema.database) (m e : Z),
    m <> 0 -> e <> 0 ->
    Schema.has_registration m e d = true ->
    Http.replies (MemberEventRoutes.registerMemberToEvent (Http.Numeral m) (Http.Numeral e)) d
    = []
    /\ Http.thrown (MemberEventRoutes.registerMemberToEvent (Http.Numeral m) (Http.Numeral e)) d
       = Some (JS.TypeError "object is not iterable")
    /\ Schema.member_events
         (Http.database_after
            (MemberEventRoutes.registerMemberToEvent (Http.Numeral m) (Http.Numeral e)) d)
       = Schema.member_events d.
Proof.
  intros d m e Hm He _.
  unfold Http.replies, Http.thrown, Http.database_after, Http.run.
  rewrite (registerMemberToEvent_stops m e _ Hm He). cbn. auto.
Qed.

Lemma registerMemberToEvent_twice_throws_witness :
  Http.replies (MemberEventRoutes.registerMemberToEvent (Http.Numeral 1) (Http.Numeral 1))
               Sample.club_registered
  = []
  /\ Http.thrown (MemberEventRoutes.registerMemberToEvent (Http.Numeral 1) (Http.Numeral 1))
                 Sample.club_registered
     = Some (JS.TypeError "object is not iterable")
  /\ Schema.member_events
       (Http.database_after
          (MemberEventRoutes.registerMemberToEvent (Http.Numeral 1) (Http.Numeral 1))
          Sample.club_registered)
     = Schema.member_events Sample.club_registered.
Proof.
  apply (registerMemberToEvent_twice_throws Sample.club_registered 1 1);
    [lia | lia | reflexivity].
Defined.

(** ** Driver errors at the gateway *)

(** C3.  The specification states: the gateway maps a read of zero rows
    to 404, a write of zero rows to 404, and every driver error to 500,
    never 404.
    The first two hold ([sendResponse_no_rows], [sendResponse_write]).
    The third does not: [execute] catches what the driver throws and
    returns [undefined], which [sendResponse] takes for an empty result.
    For every statement whose execution raises a driver error the
    outcome is 404 "No data found", and the database and the response
    are untouched. *)
Theorem sendResponse_driver_error_is_404 :
  forall (query : Sql.query) (params : list JS.value)
         (transform : JS.value -> Http.M JS.value) (status : Z)
         (w : Http.world) (e : JS.error),
    Sql.driver query params (Http.db w) = inl e ->
    exists r : Db.outcome,
      Db.sendResponse query params transform status w = (inr r, w)
      /\ Db.status r = 404
      /\ Db.status r <> 500.
Proof.
  intros query params transform status w e H.
  eexists. split; [apply (sendResponse_driver_error _ _ _ _ _ e H) |].
  cbn. split; [reflexivity | lia].
Qed.

Lemma sendResponse_driver_error_is_404_witness :
  Sql.driver Sql.registerMemberEvent [JS.num 1; JS.num 1] Sample.club_registered
  = inl (JS.DriverError "ER_DUP_ENTRY")
  /\ exists r : Db.outcome,
      Db.sendResponse Sql.registerMemberEvent [JS.num 1; JS.num 1]
                      (fun _ => Http.ret (JS.obj [("success", JS.boolean true)])) 201
                      {| Http.db := Sample.club_registered; Http.response := [] |}
      = (inr r, {| Http.db := Sample.club_registered; Http.response := [] |})
      /\ Db.status r = 404
      /\ Db.status r <> 500.
Proof.
  split; [reflexivity |].
  apply (sendResponse_driver_error_is_404
           Sql.registerMemberEvent [JS.num 1; JS.num 1] _ 201
           {| Http.db := Sample.club_registered; Http.response := [] |}
           (JS.DriverError "ER_DUP_ENTRY")).
  reflexivity.
Defined.

(** ** Deleting an event type *)

(** With no event and no preference of the type, the cascades of the
    DELETE have nothing to remove. *)
Lemma delete_event_type_unreferenced (t : Z) (d : Schema.database) :
  Schema.events_of_type t d = 0 ->
  Schema.preferences_of_type t d = 0 ->
  Schema.delete_event_type t d
  = inr (Schema.header (Schema.count (fun x => Schema.et_id x =? t) (Schema.event_types d)) 0,
         Schema.without_event_type t d).
Proof.
  intros He Hp. unfold Schema.delete_event_type, Schema.without_event_type.
  unfold Schema.events_of_type in He. unfold Schema.preferences_of_type in Hp.
  pose proof (proj1 (count_zero_iff _ _) He) as He'.
  pose proof (proj1 (count_zero_iff _ _) Hp) as Hp'.
  rewrite (filter_negb_all _ _ He'), (filter_negb_all _ _ Hp').
  rewrite (filter_negb_all (fun r => existsb _ _)); [reflexivity |].
  intros r _. apply existsb_false_iff. intros e Hin.
  rewrite (He' e Hin). apply andb_false_r.
Qed.

(** C4.  Deleting an event type is refused with status 400 whenever an
    event of that type or a preference row for it exists, and the
    database (the [event_types] row included) is then left unchanged;
    when the type exists and both counts are zero the delete succeeds
    with status 200 and removes exactly that row. *)
Theorem deleteEventTypeById_guard :
  forall (d : Schema.database) (t : Z),
    (0 < Schema.events_of_type t d \/ 0 < Schema.preferences_of_type t d ->
     exists reason : string,
       Http.run (EventTypesRoutes.deleteEventTypeById (Http.Numeral t)) d
       = (inr tt,
          {| Http.db := d;
             Http.response := [{| Http.code := 400; Http.content := Http.text reason |}] |}))
    /\
    (t <> 0 ->
     Schema.has_event_type t d = true ->
     Schema.events_of_type t d = 0 ->
     Schema.preferences_of_type t d = 0 ->
     exists confirmation : JS.value,
       Http.run (EventTypesRoutes.deleteEventTypeById (Http.Numeral t)) d
       = (inr tt,
          {| Http.db := Schema.without_event_type t d;
             Http.response :=
               [{| Http.code := 200; Http.content := Http.json confirmation |}] |})
       /\ Schema.has_event_type t (Schema.without_event_type t d) = false).
Proof.
  intros d t. split.
  - intros H. unfold Http.run, EventTypesRoutes.deleteEventTypeById. cbn.
    destruct (t =? 0) eqn:Ht; cbn; [eexists; reflexivity |].
    unfold Http.bind.
    erewrite sendResponse_select by reflexivity. cbn.
    fold (Schema.events_of_type t d).
    destruct (0 <? Schema.events_of_type t d) eqn:He; [eexists; reflexivity |].
    erewrite sendResponse_select by reflexivity. cbn.
    fold (Schema.preferences_of_type t d).
    destruct (0 <? Schema.preferences_of_type t d) eqn:Hp; [eexists; reflexivity |].
    apply Z.ltb_ge in He, Hp. lia.
  - intros Ht Hex He Hp.
    unfold Http.run, EventTypesRoutes.deleteEventTypeById. cbn.
    apply Z.eqb_neq in Ht. rewrite Ht. cbn.
    unfold Http.bind.
    erewrite sendResponse_select by reflexivity. cbn.
    fold (Schema.events_of_type t d). rewrite He. cbn.
    erewrite sendResponse_select by reflexivity. cbn.
    fold (Schema.preferences_of_type t d). rewrite Hp. cbn.
    erewrite sendResponse_write
      by (cbn; apply delete_event_type_unreferenced; assumption).
    rewrite (existsb_count_eqb _ _ Hex). cbn.
    eexists. split; [reflexivity |].
    apply existsb_filter_negb.
Qed.

Lemma deleteEventTypeById_guard_witness :
  (exists reason : string,
      Http.run (EventTypesRoutes.deleteEventTypeById (Http.Numeral 1)) Sample.club
      = (inr tt,
         {| Http.db := Sample.club;
            Http.response := [{| Http.code := 400; Http.content := Http.text reason |}] |}))
  /\
  (exists confirmation : JS.value,
      Http.run (EventTypesRoutes.deleteEventTypeById (Http.Numeral 2))
               Sample.club_two_types
      = (inr tt,
         {| Http.db := Schema.without_event_type 2 Sample.club_two_types;
            Http.response :=
              [{| Http.code := 200; Http.content := Http.json confirmation |}] |})
      /\ Schema.has_event_type 2 (Schema.without_event_type 2 Sample.club_two_types)
         = false).
Proof.
  split.
  - apply (proj1 (deleteEventTypeById_guard Sample.club 1)).
    left. reflexivity.
  - apply (proj2 (deleteEventTypeById_guard Sample.club_two_types 2));
      [lia | reflexivity | reflexivity | reflexivity].
Defined.

(** The scenario of the specification: the type of an event cannot be
    deleted; once the event is deleted, the same request succeeds. *)
Example delete_type_after_its_event :
  Http.replies (EventTypesRoutes.deleteEventTypeById (Http.Numeral 1)) Sample.club
  = [{| Http.code := 400;
        Http.content :=
          Http.text "Cannot delete event type that is being used by events" |}]
  /\ Http.replies (EventRoutes.deleteEventById (Http.Numeral 1)) Sample.club
     = [{| Http.code := 200;
           Http.content := Http.json (Db.message "1 row(s) affected") |}]
  /\ Http.replies (EventTypesRoutes.deleteEventTypeById (Http.Numeral 1))
       (Http.database_after (EventRoutes.deleteEventById (Http.Numeral 1)) Sample.club)
     = [{| Http.code := 200;
           Http.content := Http.json (Db.message "1 row(s) affected") |}].
Proof. repeat split; vm_compute; reflexivity. Qed.

(** ** Deleting and reading a member *)

(** [deleteMemberById] on any database: the three DELETE statements run,
    and the reply is 404 whatever they removed, because the handler
    looks for [affectedRows] on the gateway's [{ status, data }] object. *)
Lemma deleteMemberById_run (m : Z) (d : Schema.database) :
  Http.run (MemberRoutes.deleteMemberById (Http.Numeral m)) d
  = (inr tt,
     {| Http.db := Schema.without_member m d;
        Http.response :=
          [{| Http.code := 404; Http.content := Http.text "Member not found" |}] |}).
Proof.
  unfold Http.run, MemberRoutes.deleteMemberById. cbn.
  unfold Http.try_catch, Http.bind.
  erewrite sendResponse_select by reflexivity. cbn.
  erewrite sendResponse_write by reflexivity.
  erewrite sendResponse_write by reflexivity.
  erewrite sendResponse_write by reflexivity.
  cbn. unfold Schema.without_member. rewrite !filter_twice. reflexivity.
Qed.

(** [getMember] on any database: the gateway's object is never empty
    and has no element [0], so a usable id is answered 200 with
    [undefined] for a body, whether or not the member exists. *)
Lemma getMember_run (m : Z) (d : Schema.database) :
  Http.run (MemberRoutes.getMember (Http.Numeral m)) d
  = (inr tt,
     {| Http.db := d;
        Http.response :=
          [if m =? 0
           then {| Http.code := 400; Http.content := Http.text "Invalid member ID" |}
           else {| Http.code := 200; Http.content := Http.json JS.undefined |}] |}).
Proof.
  unfold Http.run, MemberRoutes.getMember. cbn.
  destruct (m =? 0); cbn; [reflexivity |].
  unfold Http.bind.
  erewrite sendResponse_select by reflexivity.
  reflexivity.
Qed.

(** C5.  The specification states: deleting a member always proceeds,
    removes the member's registration and preference rows and then the
    member row, reports success, and a later read of the member is
    answered not found.
    The deletions do happen: afterwards the database holds neither the
    member nor any junction row of the member.  But the reply is always
    404 "Member not found", never a success, and a later [getMember] is
    answered 200 (400 for the id 0), never 404. *)
Theorem deleteMemberById_deletes_but_reports_not_found :
  forall (d : Schema.database) (m : Z),
    Http.run (MemberRoutes.deleteMemberById (Http.Numeral m)) d
    = (inr tt,
       {| Http.db := Schema.without_member m d;
          Http.response :=
            [{| Http.code := 404; Http.content := Http.text "Member not found" |}] |})
    /\ Schema.has_member m (Schema.without_member m d) = false
    /\ Schema.registrations_of_member m (Schema.without_member m d) = 0
    /\ Schema.preferences_of_member m (Schema.without_member m d) = 0
    /\ Http.replies (MemberRoutes.getMember (Http.Numeral m)) (Schema.without_member m d)
       = [if m =? 0
          then {| Http.code := 400; Http.content := Http.text "Invalid member ID" |}
          else {| Http.code := 200; Http.content := Http.json JS.undefined |}].
Proof.
  intros d m.
  split; [apply deleteMemberById_run |].
  split; [apply existsb_filter_negb |].
  split; [apply count_zero_existsb, existsb_filter_negb |].
  split; [apply count_zero_existsb, existsb_filter_negb |].
  unfold Http.replies. now rewrite getMember_run.
Qed.

(** The sample club with Ana registered: she is removed with her rows,
    and the caller is told she was not found. *)
Example deleteMemberById_registered_member :
  Schema.has_member 1 Sample.club_registered = true
  /\ Http.replies (MemberRoutes.deleteMemberById (Http.Numeral 1)) Sample.club_registered
     = [{| Http.code := 404; Http.content := Http.text "Member not found" |}]
  /\ Schema.members
       (Http.database_after (MemberRoutes.deleteMemberById (Http.Numeral 1))
                            Sample.club_registered)
     = []
  /\ Http.replies (MemberRoutes.getMember (Http.Numeral 1))
       (Http.database_after (MemberRoutes.deleteMemberById (Http.Numeral 1))
                            Sample.club_registered)
     = [{| Http.code := 200; Http.content := Http.json JS.undefined |}].
Proof. repeat split; vm_compute; reflexivity. Qed.

(** ** The route table *)

(** C6.  The specification states: POST and DELETE on
    /members/:memberId/events/:eventId are routed to the register and
    unregister handlers.
    The route table of [server.js] has no such route, and imports
    neither handler: for every member id and event id both requests fall
    through the table. *)
Theorem member_event_routes_are_not_mounted :
  forall memberId eventId : string,
    Server.dispatch Server.POST ["members"; memberId; "events"; eventId] = None
    /\ Server.dispatch Server.DELETE ["members"; memberId; "events"; eventId] = None.
Proof.
  intros memberId eventId.
  unfold Server.dispatch, Server.app. cbn.
  rewrite !andb_false_r. cbn. split; reflexivity.
Qed.

(** ** Validation of the name *)

Lemma database_eta (d : Schema.database) :
  {| Schema.event_types := Schema.event_types d;
     Schema.event_types_auto := Schema.event_types_auto d;
     Schema.members := Schema.members d;
     Schema.members_auto := Schema.members_auto d;
     Schema.events := Schema.events d;
     Schema.events_auto := Schema.events_auto d;
     Schema.member_preferred_event_types := Schema.member_preferred_event_types d;
     Schema.member_events := Schema.member_events d |} = d.
Proof. destruct d; reflexivity. Qed.

(** An UPDATE whose WHERE clause matches no row changes nothing. *)
Lemma update_event_type_absent (name : string) (id : Z) (d : Schema.database) :
  Schema.has_event_type id d = false ->
  Schema.update_event_type name id d = inr (Schema.header 0 0, d).
Proof.
  intros H. unfold Schema.update_event_type. rewrite H. cbn.
  unfold Schema.has_event_type in H.
  pose proof (proj1 (existsb_false_iff _ _) H) as Hall.
  rewrite (map_if_none (fun t => Schema.et_id t =? id)) by exact Hall.
  rewrite (proj2 (count_zero_iff _ _) Hall).
  now rewrite database_eta.
Qed.

Lemma update_member_absent (name : string) (id : Z) (d : Schema.database) :
  Schema.has_member id d = false ->
  Schema.update_member name id d = inr (Schema.header 0 0, d).
Proof.
  intros H. unfold Schema.update_member.
  unfold Schema.has_member in H.
  pose proof (proj1 (existsb_false_iff _ _) H) as Hall.
  rewrite (map_if_none (fun m => Schema.m_id m =? id)) by exact Hall.
  rewrite (proj2 (count_zero_iff _ _) Hall).
  now rewrite database_eta.
Qed.

Lemma truthy_name (body : Http.body) :
  Http.name body = None \/ Http.name body = Some "" ->
  JS.truthy (Http.body_name body) = false.
Proof. unfold Http.body_name. intros [-> | ->]; reflexivity. Qed.

Lemma truthy_str (s : string) : s <> "" -> JS.truthy (JS.str s) = true.
Proof.
  intros H. cbn. apply negb_true_iff. now apply String.eqb_neq.
Qed.

(** C7.  The specification states: an update of an id that does not
    exist is answered 404 whatever the fields are, because existence is
    checked before the fields are validated.
    The handlers check the name first, before any statement is sent.
    As amended: an update whose name is absent or empty is answered 400
    "Name is required", whether or not the id exists, and changes
    nothing; an update with a non-empty name of an id that does not
    exist (for an event type, an id other than 0) is answered 404 and
    changes nothing. *)
Theorem update_checks_name_before_existence :
  forall (d : Schema.database) (id : Z) (body : Http.body),
    (Http.name body = None \/ Http.name body = Some "" ->
     Http.run (EventTypesRoutes.updateEventTypeById (Http.Numeral id) body) d
     = Http.bad_request d
     /\ Http.run (MemberRoutes.updateMemberInfo (Http.Numeral id) body) d
        = Http.bad_request d)
    /\
    (forall name : string,
        Http.name body = Some name -> name <> "" ->
        (id <> 0 -> Schema.has_event_type id d = false ->
         Http.run (EventTypesRoutes.updateEventTypeById (Http.Numeral id) body) d
         = Http.not_found "No data found or affected" d)
        /\
        (Schema.has_member id d = false ->
         Http.run (MemberRoutes.updateMemberInfo (Http.Numeral id) body) d
         = Http.not_found "Member not found" d)).
Proof.
  intros d id body. split.
  - intros H. apply truthy_name in H.
    unfold Http.run, EventTypesRoutes.updateEventTypeById, MemberRoutes.updateMemberInfo.
    rewrite H, orb_true_r. split; reflexivity.
  - intros name Hname Hne.
    assert (Ht : JS.truthy (Http.body_name body) = true)
      by (unfold Http.body_name; rewrite Hname; now apply truthy_str).
    split.
    + intros Hid Habs.
      unfold Http.run, EventTypesRoutes.updateEventTypeById.
      rewrite Ht. cbn. apply Z.eqb_neq in Hid. rewrite Hid. cbn.
      unfold Http.bind, Http.body_name. rewrite Hname.
      erewrite sendResponse_write
        by (cbn; apply update_event_type_absent; exact Habs).
      reflexivity.
    + intros Habs.
      unfold Http.run, MemberRoutes.updateMemberInfo.
      rewrite Ht. cbn.
      unfold Http.bind, Http.body_name. rewrite Hname.
      erewrite sendResponse_write
        by (cbn; apply update_member_absent; exact Habs).
      reflexivity.
Qed.

(** C7 at an id that does not exist, with no name in the body:
    both handlers answer 400, not 404. *)
Lemma update_of_absent_id_without_name_is_400 :
  Schema.has_event_type 99 Sample.club = false
  /\ Http.replies (EventTypesRoutes.updateEventTypeById (Http.Numeral 99) Sample.no_name)
                  Sample.club
     = [{| Http.code := 400; Http.content := Http.text "Name is required" |}]
  /\ Schema.has_member 99 Sample.club = false
  /\ Http.replies (MemberRoutes.updateMemberInfo (Http.Numeral 99) Sample.no_name)
                  Sample.club
     = [{| Http.code := 400; Http.content := Http.text "Name is required" |}].
Proof. repeat split; vm_compute; reflexivity. Qed.

Lemma update_checks_name_before_existence_witness :
  (Http.run (EventTypesRoutes.updateEventTypeById (Http.Numeral 99) Sample.no_name)
            Sample.club
   = Http.bad_request Sample.club
   /\ Http.run (MemberRoutes.updateMemberInfo (Http.Numeral 99) Sample.no_name)
               Sample.club
      = Http.bad_request Sample.club)
  /\ Http.run (EventTypesRoutes.updateEventTypeById (Http.Numeral 99) Sample.new_name)
              Sample.club
     = Http.not_found "No data found or affected" Sample.club
  /\ Http.run (MemberRoutes.updateMemberInfo (Http.Numeral 99) Sample.new_name)
              Sample.club
     = Http.not_found "Member not found" Sample.club.
Proof.
  split; [| split].
  - apply (proj1 (update_checks_name_before_existence Sample.club 99 Sample.no_name)).
    left. reflexivity.
  - apply (proj2 (update_checks_name_before_existence Sample.club 99 Sample.new_name)
                 "Ana Costa" eq_refl); [discriminate | lia | reflexivity].
  - apply (proj2 (update_checks_name_before_existence Sample.club 99 Sample.new_name)
                 "Ana Costa" eq_refl); [discriminate | reflexivity].
Defined.

(** C8.  The specification states: a create whose name is absent, empty
    or only whitespace is answered 400 and inserts nothing.
    The handlers test [!name] and never trim.  As amended: a create
    whose name is absent or the empty string is answered 400 "Name is
    required" and inserts nothing; a name of blanks passes the test and
    is inserted as it is. *)
Theorem create_requires_a_name :
  forall (d : Schema.database) (body : Http.body),
    Http.name body = None \/ Http.name body = Some "" ->
    Http.run (EventTypesRoutes.createEventType body) d = Http.bad_request d
    /\ Http.run (MemberRoutes.createMember body) d = Http.bad_request d.
Proof.
  intros d body H. apply truthy_name in H.
  unfold Http.run, EventTypesRoutes.createEventType, MemberRoutes.createMember.
  rewrite H. split; reflexivity.
Qed.

Lemma create_requires_a_name_witness :
  Http.run (EventTypesRoutes.createEventType Sample.no_name) Sample.club
  = Http.bad_request Sample.club
  /\ Http.run (MemberRoutes.createMember Sample.no_name) Sample.club
     = Http.bad_request Sample.club.
Proof.
  apply (create_requires_a_name Sample.club Sample.no_name).
  left. reflexivity.
Defined.

(** C8 at a name of three blanks: both creates succeed and the
    row is inserted. *)
Lemma create_accepts_a_blank_name :
  Http.replies (EventTypesRoutes.createEventType Sample.blank_name) Sample.club
  = [{| Http.code := 201;
        Http.content := Http.json (Db.message "1 row(s) affected") |}]
  /\ Schema.event_types
       (Http.database_after (EventTypesRoutes.createEventType Sample.blank_name)
                            Sample.club)
     = [{| Schema.et_id := 1; Schema.et_name := "Passeio" |};
        {| Schema.et_id := 2; Schema.et_name := "   " |}]
  /\ Http.replies (MemberRoutes.createMember Sample.blank_name) Sample.club
     = [{| Http.code := 200;
           Http.content :=
             Http.json
               (JS.obj [("message", JS.str "Member created successfully");
                        ("member",
                         JS.obj [("id", JS.undefined); ("name", JS.str "   ");
                                 ("preferredEventTypes", JS.arr [])])]) |}]
  /\ Schema.members
       (Http.database_after (MemberRoutes.createMember Sample.blank_name) Sample.club)
     = [{| Schema.m_id := 1; Schema.m_name := "Ana" |};
        {| Schema.m_id := 2; Schema.m_name := "   " |}].
Proof. repeat split; vm_compute; reflexivity. Qed.

(** ** The in-browser stores *)

Section ArrayLemmas.

Context {A : Type}.

Lemma findIndex_Some (p : A -> bool) (l : list A) (index : nat) :
  Arrays.findIndex p l = Some index ->
  exists x, nth_error l index = Some x /\ p x = true.
Proof.
  revert index. induction l as [| a l IH]; cbn; intros index H; [discriminate |].
  destruct (p a) eqn:Ha.
  - injection H as <-. exists a. now split.
  - destruct (Arrays.findIndex p l) as [i |]; [| discriminate].
    injection H as <-. cbn. now apply IH.
Qed.

Lemma findIndex_None (p : A -> bool) (l : list A) :
  Arrays.findIndex p l = None -> forall x, In x l -> p x = false.
Proof.
  induction l as [| a l IH]; cbn; intros H x Hx; [contradiction |].
  destruct (p a) eqn:Ha; [discriminate |].
  destruct (Arrays.findIndex p l); [discriminate |].
  destruct Hx as [<- | Hx]; [exact Ha | now apply IH].
Qed.

Lemma splice_length (l : list A) (index : nat) (x : A) :
  nth_error l index = Some x ->
  S (List.length (Arrays.splice index l)) = List.length l.
Proof.
  revert index. induction l as [| a l IH]; intros [| i] H; cbn in *;
    try discriminate; [reflexivity |].
  f_equal. now apply IH.
Qed.

Lemma splice_map {B} (g : A -> B) (l : list A) (index : nat) :
  map g (Arrays.splice index l) = Arrays.splice index (map g l).
Proof.
  revert index. induction l as [| a l IH]; intros [| i]; cbn; try reflexivity.
  f_equal. apply IH.
Qed.

Lemma forEach_length (f : A -> Z -> A) (idx : Z) (l : list A) :
  List.length (Arrays.forEach f idx l) = List.length l.
Proof.
  revert idx. induction l as [| a l IH]; intros idx; cbn; [reflexivity |].
  f_equal. apply IH.
Qed.

(** What [forEach] does to a field, when each call sets that field from
    the index alone. *)
Lemma forEach_sets {B} (g : A -> B) (f : A -> Z -> A) (h : Z -> B) :
  (forall x idx, g (f x idx) = h idx) ->
  forall idx l,
    map g (Arrays.forEach f idx l) = map h (Arrays.range idx (List.length l)).
Proof.
  intros Hset idx l. revert idx.
  induction l as [| a l IH]; intros idx; cbn; [reflexivity |].
  rewrite Hset. f_equal. apply IH.
Qed.

(** What [forEach] does to a field that each call leaves alone. *)
Lemma forEach_keeps {B} (g : A -> B) (f : A -> Z -> A) :
  (forall x idx, g (f x idx) = g x) ->
  forall idx l, map g (Arrays.forEach f idx l) = map g l.
Proof.
  intros Hkeep idx l. revert idx.
  induction l as [| a l IH]; intros idx; cbn; [reflexivity |].
  rewrite Hkeep. f_equal. apply IH.
Qed.

End ArrayLemmas.

Lemma range_succ (from : Z) (n : nat) :
  map (fun idx => idx + 1) (Arrays.range from n) = Arrays.range (from + 1) n.
Proof.
  revert from. induction n as [| n IH]; intros from; cbn; [reflexivity |].
  f_equal. apply IH.
Qed.

Lemma MemberStore_delete_inv (id : Z) (s s' : MemberStore.MemberStoreClass) :
  MemberStore.delete id s = inr s' ->
  exists index : nat,
    nth_error (map MemberStore.id (MemberStore.members s)) index = Some id
    /\ MemberStore.members s'
       = Arrays.forEach MemberStore.set_id 0
                        (Arrays.splice index (MemberStore.members s))
    /\ MemberStore.lastId s' = Z.of_nat (List.length (MemberStore.members s'))
    /\ MemberStore.localStorage s'
       = Some (MemberStore.lastId s', MemberStore.members s').
Proof.
  unfold MemberStore.delete.
  destruct (Arrays.findIndex _ _) as [index |] eqn:Hfind; [| discriminate].
  intros H. injection H as <-. exists index. cbn.
  apply findIndex_Some in Hfind. destruct Hfind as (x & Hx & Hid).
  apply Z.eqb_eq in Hid. subst id.
  split; [| auto].
  rewrite nth_error_map, Hx. reflexivity.
Qed.

Lemma EventStore_delete_inv (id : Z) (s s' : EventStore.EventStoreClass) :
  EventStore.delete id s = inr s' ->
  exists index : nat,
    nth_error (map EventStore.id (EventStore.events s)) index = Some id
    /\ EventStore.events s'
       = Arrays.forEach EventStore.set_id 0
                        (Arrays.splice index (EventStore.events s))
    /\ EventStore.lastId s' = Z.of_nat (List.length (EventStore.events s'))
    /\ EventStore.localStorage s'
       = Some (EventStore.lastId s', EventStore.events s').
Proof.
  unfold EventStore.delete.
  destruct (Arrays.findIndex _ _) as [index |] eqn:Hfind; [| discriminate].
  intros H. injection H as <-. exists index. cbn.
  apply findIndex_Some in Hfind. destruct Hfind as (x & Hx & Hid).
  apply Z.eqb_eq in Hid. subst id.
  split; [| auto].
  rewrite nth_error_map, Hx. reflexivity.
Qed.

(** C9.  In both in-browser stores a delete of an id that is in the
    store succeeds, and after every successful delete the ids of the
    remaining entities are 1..n in list order, where n is the number of
    remaining entities (one fewer than before, the others kept in their
    order), and [lastId], in the store and in the item saved to
    localStorage, is n. *)
Theorem legacy_delete_resequences_ids :
  (forall (id : Z) (s : MemberStore.MemberStoreClass),
      (In id (map MemberStore.id (MemberStore.members s)) ->
       exists s', MemberStore.delete id s = inr s')
      /\
      forall s' : MemberStore.MemberStoreClass,
        MemberStore.delete id s = inr s' ->
        map MemberStore.id (MemberStore.members s')
        = Arrays.range 1 (List.length (MemberStore.members s'))
        /\ MemberStore.lastId s' = Z.of_nat (List.length (MemberStore.members s'))
        /\ MemberStore.localStorage s'
           = Some (MemberStore.lastId s', MemberStore.members s')
        /\ S (List.length (MemberStore.members s'))
           = List.length (MemberStore.members s)
        /\ exists index : nat,
            nth_error (map MemberStore.id (MemberStore.members s)) index = Some id
            /\ map MemberStore.name (MemberStore.members s')
               = Arrays.splice index (map MemberStore.name (MemberStore.members s)))
  /\
  (forall (id : Z) (s : EventStore.EventStoreClass),
      (In id (map EventStore.id (EventStore.events s)) ->
       exists s', EventStore.delete id s = inr s')
      /\
      forall s' : EventStore.EventStoreClass,
        EventStore.delete id s = inr s' ->
        map EventStore.id (EventStore.events s')
        = Arrays.range 1 (List.length (EventStore.events s'))
        /\ EventStore.lastId s' = Z.of_nat (List.length (EventStore.events s'))
        /\ EventStore.localStorage s'
           = Some (EventStore.lastId s', EventStore.events s')
        /\ S (List.length (EventStore.events s'))
           = List.length (EventStore.events s)
        /\ exists index : nat,
            nth_error (map EventStore.id (EventStore.events s)) index = Some id
            /\ map EventStore.name (EventStore.events s')
               = Arrays.splice index (map EventStore.name (EventStore.events s))).
Proof.
  split.
  - intros id s. split.
    { intros Hin. unfold MemberStore.delete.
      destruct (Arrays.findIndex _ _) eqn:Hfind; [eexists; reflexivity |].
      apply in_map_iff in Hin. destruct Hin as (x & <- & Hx).
      pose proof (findIndex_None _ _ Hfind x Hx) as Hp. cbn in Hp.
      now rewrite Z.eqb_refl in Hp. }
    intros s' H.
    destruct (MemberStore_delete_inv _ _ _ H) as (index & Hnth & Hm & Hlast & Hsaved).
    assert (Hids : map MemberStore.id (MemberStore.members s')
                   = Arrays.range 1 (List.length (MemberStore.members s'))).
    { rewrite Hm at 1.
      rewrite (forEach_sets MemberStore.id MemberStore.set_id (fun idx => idx + 1))
        by reflexivity.
      rewrite range_succ. cbn. now rewrite Hm, forEach_length. }
    split; [exact Hids |]. split; [exact Hlast |]. split; [exact Hsaved |].
    rewrite nth_error_map in Hnth.
    destruct (nth_error (MemberStore.members s) index) as [x |] eqn:Hx;
      [| discriminate].
    split.
    + rewrite Hm, forEach_length. now apply (splice_length _ _ x).
    + exists index. split; [now rewrite nth_error_map, Hx |].
      rewrite Hm, (forEach_keeps MemberStore.name) by reflexivity.
      apply splice_map.
  - intros id s. split.
    { intros Hin. unfold EventStore.delete.
      destruct (Arrays.findIndex _ _) eqn:Hfind; [eexists; reflexivity |].
      apply in_map_iff in Hin. destruct Hin as (x & <- & Hx).
      pose proof (findIndex_None _ _ Hfind x Hx) as Hp. cbn in Hp.
      now rewrite Z.eqb_refl in Hp. }
    intros s' H.
    destruct (EventStore_delete_inv _ _ _ H) as (index & Hnth & Hm & Hlast & Hsaved).
    assert (Hids : map EventStore.id (EventStore.events s')
                   = Arrays.range 1 (List.length (EventStore.events s'))).
    { rewrite Hm at 1.
      rewrite (forEach_sets EventStore.id EventStore.set_id (fun idx => idx + 1))
        by reflexivity.
      rewrite range_succ. cbn. now rewrite Hm, forEach_length. }
    split; [exact Hids |]. split; [exact Hlast |]. split; [exact Hsaved |].
    rewrite nth_error_map in Hnth.
    destruct (nth_error (EventStore.events s) index) as [x |] eqn:Hx;
      [| discriminate].
    split.
    + rewrite Hm, forEach_length. now apply (splice_length _ _ x).
    + exists index. split; [now rewrite nth_error_map, Hx |].
      rewrite Hm, (forEach_keeps EventStore.name) by reflexivity.
      apply splice_map.
Qed.

(** Deleting the second of three members and the first of three events:
    the two that remain are numbered 1 and 2. *)
Lemma legacy_delete_resequences_ids_witness :
  (exists s', MemberStore.delete 2 Sample.three_members = inr s')
  /\ map MemberStore.id (MemberStore.members Sample.two_members) = Arrays.range 1 2
  /\ MemberStore.lastId Sample.two_members = 2
  /\ (exists s', EventStore.delete 1 Sample.three_events = inr s')
  /\ map EventStore.id (EventStore.events Sample.two_events) = Arrays.range 1 2
  /\ EventStore.lastId Sample.two_events = 2.
Proof.
  split; [| split; [| split; [| split; [| split]]]].
  - apply (proj1 (proj1 legacy_delete_resequences_ids 2 Sample.three_members)).
    cbn. auto.
  - apply (proj2 (proj1 legacy_delete_resequences_ids 2 Sample.three_members)
                 Sample.two_members eq_refl).
  - apply (proj2 (proj1 legacy_delete_resequences_ids 2 Sample.three_members)
                 Sample.two_members eq_refl).
  - apply (proj1 (proj2 legacy_delete_resequences_ids 1 Sample.three_events)).
    cbn. auto.
  - apply (proj2 (proj2 legacy_delete_resequences_ids 1 Sample.three_events)
                 Sample.two_events eq_refl).
  - apply (proj2 (proj2 legacy_delete_resequences_ids 1 Sample.three_events)
                 Sample.two_events eq_refl).
Defined.

(** ** Updating a member *)

Arguments Sql.driver : simpl never.

Lemma updateMemberInfo_run (name : string) (m : Z) (preferred : option (list Z))
      (d : Schema.database) :
  name <> "" ->
  Schema.has_member m d = true ->
  Http.run (MemberRoutes.updateMemberInfo
              (Http.Numeral m)
              {| Http.name := Some name; Http.preferredEventTypes := preferred |}) d
  = (inr tt,
     {| Http.db := Schema.renamed name m d;
        Http.response :=
          [{| Http.code := 200;
              Http.content :=
                Http.json
                  (JS.obj [("id", JS.num m); ("name", JS.str name);
                           ("preferredEventTypes",
                            JS.arr (map JS.num (match preferred with
                                                | Some l => l
                                                | None => []
                                                end)))]) |}] |}).
Proof.
  intros Hname Hm.
  unfold Http.run, MemberRoutes.updateMemberInfo.
  cbn [Http.body_name Http.name Http.body_preferredEventTypes Http.preferredEventTypes].
  rewrite (truthy_str _ Hname). cbn [negb].
  unfold Http.bind.
  erewrite sendResponse_write by reflexivity.
  cbn [Http.db Http.response].
  rewrite (existsb_count_eqb _ _ Hm). cbn.
  erewrite sendResponse_write by reflexivity.
  destruct preferred as [[| t l] |]; reflexivity.
Qed.

Lemma pair_eqb_eq (a b : Z * Z) : Schema.pair_eqb a b = true <-> a = b.
Proof.
  destruct a as [a1 a2], b as [b1 b2]. unfold Schema.pair_eqb. cbn.
  rewrite andb_true_iff, !Z.eqb_eq. split; [intros [-> ->] | intros [= -> ->]]; auto.
Qed.

(** C10.  An update of an existing member with a non-empty name deletes
    the preference rows of the member and never rebuilds them: the
    INSERT that should store the request's list is rejected by the
    server every time, the handler does not look at its outcome, and
    the reply is 200 with the list of the request as if it had been
    stored.  So whatever list is sent, the member is left with no
    preference row at all; the rows of the other members are not
    touched. *)
Theorem updateMemberInfo_deletes_but_never_rebuilds :
  forall (d : Schema.database) (m : Z) (name : string) (preferred : option (list Z)),
    name <> "" ->
    Schema.has_member m d = true ->
    Http.run (MemberRoutes.updateMemberInfo
                (Http.Numeral m)
                {| Http.name := Some name; Http.preferredEventTypes := preferred |}) d
    = (inr tt,
       {| Http.db := Schema.renamed name m d;
          Http.response :=
            [{| Http.code := 200;
                Http.content :=
                  Http.json
                    (JS.obj [("id", JS.num m); ("name", JS.str name);
                             ("preferredEventTypes",
                              JS.arr (map JS.num (match preferred with
                                                  | Some l => l
                                                  | None => []
                                                  end)))]) |}] |})
    /\ Schema.preferences_of_member
         m (Http.database_after
              (MemberRoutes.updateMemberInfo
                 (Http.Numeral m)
                 {| Http.name := Some name; Http.preferredEventTypes := preferred |}) d)
       = 0
    /\ (forall t : Z,
           Schema.has_preference
             m t (Http.database_after
                    (MemberRoutes.updateMemberInfo
                       (Http.Numeral m)
                       {| Http.name := Some name;
                          Http.preferredEventTypes := preferred |}) d)
           = false)
    /\ filter (fun r => negb (fst r =? m))
              (Schema.member_preferred_event_types
                 (Http.database_after
                    (MemberRoutes.updateMemberInfo
                       (Http.Numeral m)
                       {| Http.name := Some name;
                          Http.preferredEventTypes := preferred |}) d))
       = filter (fun r => negb (fst r =? m)) (Schema.member_preferred_event_types d).
Proof.
  intros d m name preferred Hname Hm.
  unfold Http.database_after.
  rewrite (updateMemberInfo_run name m preferred d Hname Hm). cbn [snd Http.db].
  split; [reflexivity |].
  assert (Hnone : forall x : Z * Z,
             In x (Schema.member_preferred_event_types (Schema.renamed name m d)) ->
             (fst x =? m) = false).
  { intros x Hx. cbn in Hx. apply filter_In in Hx.
    destruct Hx as [_ Hx]. now apply negb_true_iff in Hx. }
  split; [| split].
  - unfold Schema.preferences_of_member.
    apply count_zero_existsb. cbn. apply existsb_filter_negb.
  - intros t. unfold Schema.has_preference.
    apply existsb_false_iff. intros x Hx.
    apply not_true_iff_false. intros Heq. apply pair_eqb_eq in Heq. subst x.
    apply Hnone in Hx. cbn in Hx. now rewrite Z.eqb_refl in Hx.
  - cbn. apply filter_twice.
Qed.

Lemma updateMemberInfo_deletes_but_never_rebuilds_witness :
  Http.replies
    (MemberRoutes.updateMemberInfo
       (Http.Numeral 1)
       {| Http.name := Some "Ana"; Http.preferredEventTypes := Some [2] |})
    Sample.club_two_types
  = [{| Http.code := 200;
        Http.content :=
          Http.json (JS.obj [("id", JS.num 1); ("name", JS.str "Ana");
                             ("preferredEventTypes", JS.arr [JS.num 2])]) |}]
  /\ Schema.has_preference 1 1 Sample.club_two_types = true
  /\ Schema.has_preference
       1 2 (Http.database_after
              (MemberRoutes.updateMemberInfo
                 (Http.Numeral 1)
                 {| Http.name := Some "Ana"; Http.preferredEventTypes := Some [2] |})
              Sample.club_two_types)
     = false.
Proof.
  pose proof (updateMemberInfo_deletes_but_never_rebuilds
                Sample.club_two_types 1 "Ana" (Some [2])
                ltac:(discriminate) eq_refl) as (Hrun & _ & Hnone & _).
  split; [| split; [reflexivity | apply Hnone]].
  unfold Http.replies. rewrite Hrun. reflexivity.
Defined.

(** The same update on the sample club, run through the handler: Ana
    had one preference, the request restates none, and none is left. *)
Example updateMemberInfo_drops_unstated_preferences :
  Http.replies (MemberRoutes.updateMemberInfo (Http.Numeral 1) Sample.new_name)
               Sample.club_registered
  = [{| Http.code := 200;
        Http.content :=
          Http.json (JS.obj [("id", JS.num 1); ("name", JS.str "Ana Costa");
                             ("preferredEventTypes", JS.arr [])]) |}]
  /\ Schema.member_preferred_event_types
       (Http.database_after
          (MemberRoutes.updateMemberInfo (Http.Numeral 1) Sample.new_name)
          Sample.club_registered)
     = [].
Proof. split; vm_compute; reflexivity. Qed.

(* ================================================================== *)
(** * Further properties *)
(* ================================================================== *)

(** ** The gateway on any result *)

(** [Db.sendResponse] is [execute] followed by [Selects.normalize]. *)
Lemma sendResponse_is_normalize (query : Sql.query) (params : list JS.value)
      (transform : JS.value -> Http.M JS.value) (status : Z) :
  Db.sendResponse query params transform status
  = Http.try_catch
      (result <- Db.execute query params ;;
       Selects.normalize result transform status)
      (fun error =>
         Http.ret {| Db.status := 500;
                     Db.data := JS.obj [("error", JS.str "Database query failed")] |}).
Proof. reflexivity. Qed.

Lemma normalize_status (result : JS.value)
      (transform : JS.value -> Http.M JS.value) (status : Z)
      (w w' : Http.world) (r : Db.outcome) :
  Selects.normalize result transform status w = (inr r, w') ->
  Db.status r = 404 \/ Db.status r = status.
Proof.
  unfold Selects.normalize, Http.bind.
  destruct result as [| | b | z | | s | l | fields]; cbn;
    try (intros [= <- <-]; now left).
  - destruct b; cbn; intros [= <- <-]; now left.
  - destruct (z =? 0); cbn; intros [= <- <-]; now left.
  - destruct (s =? "")%string; cbn.
    + intros [= <- <-]; now left.
    + destruct (("affectedRows" =? "length")%string); cbn;
        intros [= <- <-]; now left.
  - destruct l as [| x l]; cbn; [intros [= <- <-]; now left |].
    replace (Z.pos (Pos.of_succ_nat (List.length l)) =? 0) with false
      by (symmetry; apply Z.eqb_neq; lia).
    destruct (transform _ _) as [[e | v] w1]; [discriminate |].
    intros [= <- <-]. now right.
  - destruct (JS.is_undefined (JS.assoc "affectedRows" fields)); cbn.
    + intros [= <- <-]; now left.
    + destruct (JS.is_num _ 0); intros [= <- <-]; [now left | now right].
Qed.

(** Where [normalize] leaves the response alone. *)
Lemma normalize_response (result : JS.value)
      (transform : JS.value -> Http.M JS.value) (status : Z) (w : Http.world) :
  (forall v w0, Http.response (snd (transform v w0)) = Http.response w0) ->
  Http.response (snd (Selects.normalize result transform status w))
  = Http.response w.
Proof.
  intros Hquiet.
  unfold Selects.normalize, Http.bind.
  destruct result as [| | b | z | | s | l | fields]; cbn; try reflexivity.
  - destruct b; reflexivity.
  - destruct (z =? 0); reflexivity.
  - destruct (s =? "")%string; cbn; [reflexivity |].
    destruct (("affectedRows" =? "length")%string); reflexivity.
  - destruct l as [| x l]; cbn; [reflexivity |].
    replace (Z.pos (Pos.of_succ_nat (List.length l)) =? 0) with false
      by (symmetry; apply Z.eqb_neq; lia).
    specialize (Hquiet (JS.arr (x :: l)) w).
    destruct (transform _ _) as [[e | v] w1]; exact Hquiet.
  - destruct (JS.is_undefined (JS.assoc "affectedRows" fields)); cbn.
    + reflexivity.
    + destruct (JS.is_num _ 0); reflexivity.
Qed.

Lemma execute_response (query : Sql.query) (params : list JS.value) (w : Http.world) :
  exists result w',
    Db.execute query params w = (inr result, w')
    /\ Http.response w' = Http.response w.
Proof.
  unfold Db.execute.
  destruct (Sql.driver query params (Http.db w)) as [e | [result d']];
    eexists; eexists; split; reflexivity.
Qed.

(** X1.  [sendResponse] never throws, whatever the statement, the
    database and [transform] do: it resolves to an outcome whose status
    is 404, 500 or the status it was given. *)
Theorem sendResponse_always_resolves :
  forall (query : Sql.query) (params : list JS.value)
         (transform : JS.value -> Http.M JS.value) (status : Z) (w : Http.world),
  exists (r : Db.outcome) (w' : Http.world),
    Db.sendResponse query params transform status w = (inr r, w')
    /\ (Db.status r = 404 \/ Db.status r = 500 \/ Db.status r = status).
Proof.
  intros query params transform status w.
  rewrite sendResponse_is_normalize. unfold Http.try_catch, Http.bind.
  destruct (execute_response query params w) as (result & w1 & -> & _).
  destruct (Selects.normalize result transform status w1) as [[e | r] w2] eqn:Hn.
  - eexists; eexists. split; [reflexivity |]. cbn. auto.
  - exists r, w2. split; [reflexivity |].
    destruct (normalize_status _ _ _ _ _ _ Hn); auto.
Qed.

(** X2.  [sendResponse] itself writes nothing to the response: when
    [transform] leaves the response as it is, so does the call. *)
Theorem sendResponse_writes_no_reply :
  forall (query : Sql.query) (params : list JS.value)
         (transform : JS.value -> Http.M JS.value) (status : Z) (w : Http.world),
    (forall v w0, Http.response (snd (transform v w0)) = Http.response w0) ->
    Http.response (snd (Db.sendResponse query params transform status w))
    = Http.response w.
Proof.
  intros query params transform status w Hquiet.
  rewrite sendResponse_is_normalize. unfold Http.try_catch, Http.bind.
  destruct (execute_response query params w) as (result & w1 & -> & <-).
  pose proof (normalize_response result transform status w1 Hquiet) as Hn.
  destruct (Selects.normalize result transform status w1) as [[e | r] w2];
    exact Hn.
Qed.

Lemma sendResponse_writes_no_reply_witness :
  Http.response
    (snd (Db.sendResponse Sql.registerMemberEvent [JS.num 1; JS.num 1]
            (fun _ => Http.ret (JS.obj [("success", JS.boolean true)])) 201
            {| Http.db := Sample.club_with_preference; Http.response := [] |}))
  = [].
Proof.
  apply (sendResponse_writes_no_reply
           Sql.registerMemberEvent [JS.num 1; JS.num 1]
           (fun _ => Http.ret (JS.obj [("success", JS.boolean true)])) 201
           {| Http.db := Sample.club_with_preference; Http.response := [] |}).
  reflexivity.
Defined.

(** ** Keys, and the sample databases against the schema *)

Section Keys.

Context {A : Type}.
Variable key : A -> Z.

Lemma existsb_key (k : Z) (l : list A) :
  existsb (fun x => key x =? k) l = true <-> In k (map key l).
Proof.
  rewrite existsb_exists, in_map_iff. split.
  - intros (x & Hx & Hk). apply Z.eqb_eq in Hk. now exists x.
  - intros (x & Hk & Hx). exists x. split; [exact Hx | now apply Z.eqb_eq].
Qed.

End Keys.

Lemma NoDup_snoc {A} (l : list A) (x : A) :
  NoDup l -> ~ In x l -> NoDup (l ++ [x]).
Proof.
  intros Hl Hx. induction Hl as [| a l Ha Hl IH]; cbn.
  - constructor; [intros [] | constructor].
  - constructor.
    + rewrite in_app_iff. intros [Hin | [<- | []]]; [contradiction |].
      apply Hx. now left.
    + apply IH. intros Hin. apply Hx. now right.
Qed.

Ltac check_rows :=
  repeat match goal with
         | |- NoDup _ => constructor
         | |- ~ _ => intro
         | |- _ /\ _ => split
         | |- forall _, _ => intro
         | H : False |- _ => destruct H
         | H : _ \/ _ |- _ => destruct H
         | H : _ = ?x |- _ => is_var x; subst x
         | H : _ = _ |- False => discriminate H
         | H : In _ _ |- _ => progress cbn in H
         | |- _ = true => reflexivity
         | |- _ < _ => cbn; lia
         end.

Lemma club_registered_consistent : Schema.consistent Sample.club_registered.
Proof. constructor; cbn; check_rows. Qed.

Lemma club_consistent : Schema.consistent Sample.club.
Proof. constructor; cbn; check_rows. Qed.


(** ** The list and get handlers *)

Arguments Selects.sendResponse : simpl never.

(** The gateway on a SELECT of the list and get routes. *)
Lemma select_rows (query : Selects.query) (params : list JS.value)
      (transform : JS.value -> Http.M JS.value) (status : Z)
      (w : Http.world) (rows : list JS.value) :
  Selects.driver query params (Http.db w) = inr (JS.arr rows, Http.db w) ->
  Selects.sendResponse query params transform status w
  = match rows with
    | [] => (inr {| Db.status := 404; Db.data := Db.message "No data found" |}, w)
    | _ =>
        match transform (JS.arr rows) w with
        | (inr transformed, w') =>
            (inr {| Db.status := status; Db.data := transformed |}, w')
        | (inl _, w') =>
            (inr {| Db.status := 500;
                    Db.data := JS.obj [("error", JS.str "Database query failed")] |},
             w')
        end
    end.
Proof.
  intros H.
  unfold Selects.sendResponse, Selects.normalize, Http.try_catch, Http.bind,
    Selects.execute.
  rewrite H, world_eta. destruct rows as [| row rows]; cbn; [reflexivity |].
  replace (Z.pos (Pos.of_succ_nat (List.length rows)) =? 0) with false
    by (symmetry; apply Z.eqb_neq; lia).
  destruct (transform _ _) as [[err | v] w']; reflexivity.
Qed.

Lemma filter_find {A} (p : A -> bool) (l : list A) :
  find p l = hd_error (filter p l).
Proof.
  induction l as [| a l IH]; cbn; [reflexivity |].
  destruct (p a); [reflexivity | exact IH].
Qed.

(** X4.  GET /event-types on an empty table is answered 404 "No data
    found", not an empty list; otherwise 200 with every row, in table
    order.  The database is not changed. *)
Theorem getAllEventTypes_run :
  forall d : Schema.database,
    Http.run EventTypesRoutes.getAllEventTypes d
    = (inr tt,
       {| Http.db := d;
          Http.response :=
            [match Schema.event_types d with
             | [] => {| Http.code := 404; Http.content := Http.text "No data found" |}
             | _ =>
                 {| Http.code := 200;
                    Http.content :=
                      Http.json (JS.arr (map Schema.event_type_row
                                             (Schema.event_types d))) |}
             end] |}).
Proof.
  intros d. unfold Http.run, EventTypesRoutes.getAllEventTypes, Http.bind.
  erewrite select_rows by reflexivity. cbn [Http.db].
  destruct (Schema.event_types d); reflexivity.
Qed.

(** X5.  GET /event-types/:id is answered 400 when the id is not a
    number or is 0, 404 "No data found" when no row has the id, and 200
    with the row otherwise.  The database is not changed. *)
Theorem getEventTypeById_run :
  forall (d : Schema.database) (p : Http.param),
    Http.run (EventTypesRoutes.getEventTypeById p) d
    = (inr tt,
       {| Http.db := d;
          Http.response :=
            [match p with
             | Http.Text _ =>
                 {| Http.code := 400;
                    Http.content := Http.text "Invalid event type ID" |}
             | Http.Numeral id =>
                 if id =? 0 then
                   {| Http.code := 400;
                      Http.content := Http.text "Invalid event type ID" |}
                 else
                   match find (fun t => Schema.et_id t =? id)
                              (Schema.event_types d) with
                   | Some t =>
                       {| Http.code := 200;
                          Http.content := Http.json (Schema.event_type_row t) |}
                   | None =>
                       {| Http.code := 404;
                          Http.content := Http.text "No data found" |}
                   end
             end] |}).
Proof.
  intros d [id | s]; [| reflexivity].
  unfold Http.run, EventTypesRoutes.getEventTypeById. cbn.
  destruct (id =? 0); cbn; [reflexivity |].
  unfold Http.bind.
  erewrite select_rows by reflexivity.
  rewrite filter_find. cbn [Http.db].
  destruct (filter _ (Schema.event_types d)) as [| t l]; cbn; [reflexivity |].
  replace (Z.pos (Pos.of_succ_nat (List.length (map Schema.event_type_row l))) =? 0)
    with false by (symmetry; apply Z.eqb_neq; lia).
  reflexivity.
Qed.

(** X6.  GET /members is always answered 200, and the body is the
    gateway's own [{ status, data }] object: with the rows under [data]
    when there are members, with status 404 and a message inside it when
    there are none.  The database is not changed. *)
Theorem getMembers_run :
  forall d : Schema.database,
    Http.run MemberRoutes.getMembers d
    = (inr tt,
       {| Http.db := d;
          Http.response :=
            [{| Http.code := 200;
                Http.content :=
                  Http.json
                    (Db.object
                       match Schema.members d with
                       | [] => {| Db.status := 404;
                                  Db.data := Db.message "No data found" |}
                       | _ => {| Db.status := 200;
                                 Db.data := JS.arr (map Schema.member_row
                                                        (Schema.members d)) |}
                       end) |}] |}).
Proof.
  intros d. unfold Http.run, MemberRoutes.getMembers, Http.try_catch, Http.bind.
  erewrite select_rows by reflexivity. cbn [Http.db].
  destruct (Schema.members d); reflexivity.
Qed.

(** ** Writes on event types and events *)

Lemma count_key_one {A} (key : A -> Z) (k : Z) (l : list A) :
  NoDup (map key l) ->
  existsb (fun x => key x =? k) l = true ->
  Schema.count (fun x => key x =? k) l = 1.
Proof.
  unfold Schema.count. induction l as [| a l IH]; cbn; intros Hnd H;
    [discriminate |].
  inversion Hnd as [| ? ? Hnotin Hnd']; subst.
  destruct (key a =? k) eqn:Ha; cbn.
  - apply Z.eqb_eq in Ha. subst k.
    assert (Hnone : existsb (fun x => key x =? key a) l = false).
    { apply not_true_iff_false. intros Hin. apply existsb_key in Hin.
      contradiction. }
    apply count_zero_existsb in Hnone. unfold Schema.count in Hnone. lia.
  - cbn in H. now apply IH.
Qed.







(** X9.  DELETE /event-types/:id on a database that meets the schema's
    constraints, case by case: 400 for the id 0, 400 while an event has
    the type, 400 while a member prefers it, 200 "1 row(s) affected"
    with that row alone removed when the type exists, 404 "No data found
    or affected" when it does not.  Only the 200 case changes the
    database. *)
Theorem deleteEventTypeById_run :
  forall (d : Schema.database) (t : Z),
    Schema.consistent d ->
    Http.run (EventTypesRoutes.deleteEventTypeById (Http.Numeral t)) d
    = if t =? 0 then
        (inr tt,
         {| Http.db := d;
            Http.response :=
              [{| Http.code := 400;
                  Http.content :=
                    Http.text "You must indicate the event type ID" |}] |})
      else if 0 <? Schema.events_of_type t d then
        (inr tt,
         {| Http.db := d;
            Http.response :=
              [{| Http.code := 400;
                  Http.content :=
                    Http.text
                      "Cannot delete event type that is being used by events" |}] |})
      else if 0 <? Schema.preferences_of_type t d then
        (inr tt,
         {| Http.db := d;
            Http.response :=
              [{| Http.code := 400;
                  Http.content :=
                    Http.text
                      "Cannot delete event type that is preferred by members" |}] |})
      else if Schema.has_event_type t d then
        (inr tt,
         {| Http.db :=
              Schema.with_event_types
                (filter (fun x => negb (Schema.et_id x =? t)) (Schema.event_types d))
                (Schema.event_types_auto d) d;
            Http.response :=
              [{| Http.code := 200;
                  Http.content := Http.json (Db.message "1 row(s) affected") |}] |})
      else
        (inr tt,
         {| Http.db := d;
            Http.response :=
              [{| Http.code := 404;
                  Http.content := Http.text "No data found or affected" |}] |}).
Proof.
  intros d t Hd.
  unfold Http.run, EventTypesRoutes.deleteEventTypeById. cbn.
  destruct (t =? 0) eqn:Ht; cbn; [reflexivity |].
  unfold Http.bind.
  erewrite sendResponse_select by reflexivity. cbn.
  fold (Schema.events_of_type t d).
  destruct (0 <? Schema.events_of_type t d) eqn:He; [reflexivity |].
  erewrite sendResponse_select by reflexivity. cbn.
  fold (Schema.preferences_of_type t d).
  destruct (0 <? Schema.preferences_of_type t d) eqn:Hp; [reflexivity |].
  assert (He0 : Schema.events_of_type t d = 0).
  { apply Z.ltb_ge in He. pose proof (count_nonneg (fun e => Schema.e_type_id e =? t)
                                                   (Schema.events d)).
    unfold Schema.events_of_type in *. lia. }
  assert (Hp0 : Schema.preferences_of_type t d = 0).
  { apply Z.ltb_ge in Hp.
    pose proof (count_nonneg (fun r : Z * Z => snd r =? t)
                             (Schema.member_preferred_event_types d)).
    unfold Schema.preferences_of_type in *. lia. }
  erewrite sendResponse_write
    by (unfold Sql.driver; cbn [Http.db];
        apply delete_event_type_unreferenced; assumption).
  destruct (Schema.has_event_type t d) eqn:Hex.
  - rewrite (count_key_one Schema.et_id t _ (Schema.event_type_ids d Hd) Hex).
    reflexivity.
  - unfold Schema.has_event_type in Hex.
    rewrite (proj2 (count_zero_existsb _ _) Hex). cbn.
    unfold Schema.without_event_type.
    rewrite filter_negb_all by now apply existsb_false_iff.
    now rewrite database_eta.
Qed.

Lemma deleteEventTypeById_run_witness :
  Http.replies (EventTypesRoutes.deleteEventTypeById (Http.Numeral 7)) Sample.club
  = [{| Http.code := 404; Http.content := Http.text "No data found or affected" |}].
Proof.
  unfold Http.replies.
  rewrite (deleteEventTypeById_run Sample.club 7 club_consistent).
  reflexivity.
Defined.

Lemma delete_event_unreferenced (e : Z) (d : Schema.database) :
  Schema.registrations_of_event e d = 0 ->
  Schema.delete_event e d
  = inr (Schema.header (Schema.count (fun x => Schema.e_id x =? e) (Schema.events d)) 0,
         Schema.with_events
           (filter (fun x => negb (Schema.e_id x =? e)) (Schema.events d)) d).
Proof.
  intros H. unfold Schema.delete_event, Schema.with_events.
  pose proof (proj1 (count_zero_iff _ _) H) as Hall.
  now rewrite (filter_negb_all _ _ Hall).
Qed.

(** X10.  DELETE /events/:id on a database that meets the schema's
    constraints, case by case: 400 for the id 0, 400 while a member is
    registered for the event, 200 "1 row(s) affected" with that event
    alone removed when it exists, 404 "No data found or affected" when
    it does not.  Only the 200 case changes the database. *)
Theorem deleteEventById_run :
  forall (d : Schema.database) (e : Z),
    Schema.consistent d ->
    Http.run (EventRoutes.deleteEventById (Http.Numeral e)) d
    = if e =? 0 then
        (inr tt,
         {| Http.db := d;
            Http.response :=
              [{| Http.code := 400;
                  Http.content := Http.text "You must indicate the event ID" |}] |})
      else if 0 <? Schema.registrations_of_event e d then
        (inr tt,
         {| Http.db := d;
            Http.response :=
              [{| Http.code := 400;
                  Http.content :=
                    Http.text "Cannot delete event that has registered members" |}] |})
      else if Schema.has_event e d then
        (inr tt,
         {| Http.db :=
              Schema.with_events
                (filter (fun x => negb (Schema.e_id x =? e)) (Schema.events d)) d;
            Http.response :=
              [{| Http.code := 200;
                  Http.content := Http.json (Db.message "1 row(s) affected") |}] |})
      else
        (inr tt,
         {| Http.db := d;
            Http.response :=
              [{| Http.code := 404;
                  Http.content := Http.text "No data found or affected" |}] |}).
Proof.
  intros d e Hd.
  unfold Http.run, EventRoutes.deleteEventById. cbn.
  destruct (e =? 0) eqn:He; cbn; [reflexivity |].
  unfold Http.try_catch, Http.bind.
  erewrite sendResponse_select by reflexivity. cbn.
  fold (Schema.registrations_of_event e d).
  destruct (0 <? Schema.registrations_of_event e d) eqn:Hr; [reflexivity |].
  assert (Hr0 : Schema.registrations_of_event e d = 0).
  { apply Z.ltb_ge in Hr.
    pose proof (count_nonneg (fun r : Z * Z => snd r =? e) (Schema.member_events d)).
    unfold Schema.registrations_of_event in *. lia. }
  erewrite sendResponse_write
    by (unfold Sql.driver; cbn [Http.db];
        apply delete_event_unreferenced; assumption).
  destruct (Schema.has_event e d) eqn:Hex.
  - rewrite (count_key_one Schema.e_id e _ (Schema.event_ids d Hd) Hex).
    reflexivity.
  - unfold Schema.has_event in Hex.
    rewrite (proj2 (count_zero_existsb _ _) Hex). cbn.
    unfold Schema.with_events.
    rewrite filter_negb_all by now apply existsb_false_iff.
    now rewrite database_eta.
Qed.

Lemma deleteEventById_run_witness :
  Http.replies (EventRoutes.deleteEventById (Http.Numeral 1)) Sample.club_registered
  = [{| Http.code := 400;
        Http.content := Http.text "Cannot delete event that has registered members" |}].
Proof.
  unfold Http.replies.
  rewrite (deleteEventById_run Sample.club_registered 1 club_registered_consistent).
  reflexivity.
Defined.

(** ** Events with the name of their type *)

Lemma filter_key_unique {A} (key : A -> Z) (k : Z) (l : list A) :
  NoDup (map key l) ->
  filter (fun x => key x =? k) l
  = match find (fun x => key x =? k) l with
    | Some x => [x]
    | None => []
    end.
Proof.
  induction l as [| a l IH]; cbn; intros Hnd; [reflexivity |].
  inversion Hnd as [| ? ? Hnotin Hnd']; subst.
  destruct (key a =? k) eqn:Ha; [| now apply IH].
  f_equal. apply Z.eqb_eq in Ha. subst k.
  assert (Hnone : forall x, In x l -> (key x =? key a) = false).
  { intros x Hx. apply Z.eqb_neq. intros Heq. apply Hnotin.
    rewrite <- Heq. now apply in_map. }
  clear -Hnone. induction l as [| b l IH]; cbn; [reflexivity |].
  rewrite (Hnone b (or_introl eq_refl)). apply IH.
  intros x Hx. apply Hnone. now right.
Qed.

(** With unique type ids and no dangling [type_id], the JOIN gives one
    row for each event. *)
Lemma joined_rows (p : Schema.event -> bool) (d : Schema.database) :
  Schema.consistent d ->
  Selects.joined p d = map (Selects.typed_row d) (filter p (Schema.events d)).
Proof.
  intros Hd. unfold Selects.joined.
  assert (Hall : forall e, In e (filter p (Schema.events d)) ->
                           In e (Schema.events d)).
  { intros e He. now apply filter_In in He. }
  induction (filter p (Schema.events d)) as [| e l IH]; cbn; [reflexivity |].
  rewrite IH by (intros x Hx; apply Hall; now right). f_equal.
  unfold Selects.typed_row.
  rewrite (filter_key_unique Schema.et_id _ _ (Schema.event_type_ids d Hd)).
  pose proof (Schema.event_type_fk d Hd e (Hall e (or_introl eq_refl))) as Hfk.
  unfold Schema.has_event_type in Hfk.
  destruct (find _ (Schema.event_types d)) as [t |] eqn:Hfind; [reflexivity |].
  apply existsb_exists in Hfk. destruct Hfk as (t & Ht & Hk).
  now rewrite (find_none _ _ Hfind t Ht) in Hk.
Qed.



(** X12.  GET /events/:id on a database that meets the schema's
    constraints is answered 400 when the id is not a number or is 0,
    404 "No data found" when no event has the id, and 200 with the event
    and the name of its type otherwise. *)
Theorem getEventById_run :
  forall (d : Schema.database) (p : Http.param),
    Schema.consistent d ->
    Http.run (EventRoutes.getEventById p) d
    = (inr tt,
       {| Http.db := d;
          Http.response :=
            [match p with
             | Http.Text _ =>
                 {| Http.code := 400; Http.content := Http.text "Invalid event ID" |}
             | Http.Numeral id =>
                 if id =? 0 then
                   {| Http.code := 400;
                      Http.content := Http.text "Invalid event ID" |}
                 else
                   match find (fun e => Schema.e_id e =? id) (Schema.events d) with
                   | Some e =>
                       {| Http.code := 200;
                          Http.content := Http.json (Selects.typed_row d e) |}
                   | None =>
                       {| Http.code := 404;
                          Http.content := Http.text "No data found" |}
                   end
             end] |}).
Proof.
  intros d [id | s] Hd; [| reflexivity].
  unfold Http.run, EventRoutes.getEventById. cbn.
  destruct (id =? 0); cbn; [reflexivity |].
  unfold Http.try_catch, Http.bind.
  erewrite select_rows by reflexivity. cbn [Http.db].
  rewrite (joined_rows _ d Hd), filter_find.
  destruct (filter _ (Schema.events d)) as [| e l]; cbn; [reflexivity |].
  replace (Z.pos (Pos.of_succ_nat (List.length (map (Selects.typed_row d) l))) =? 0)
    with false by (symmetry; apply Z.eqb_neq; lia).
  reflexivity.
Qed.

Lemma getEventById_run_witness :
  Http.replies (EventRoutes.getEventById (Http.Numeral 5)) Sample.club
  = [{| Http.code := 404; Http.content := Http.text "No data found" |}].
Proof.
  unfold Http.replies.
  rewrite (getEventById_run Sample.club (Http.Numeral 5) club_consistent).
  reflexivity.
Defined.

(** ** Creating, renaming and unregistering members *)










(** X17.  unregisterMemberFromEvent with two usable ids deletes the
    registration row [(m, e)], leaves every other row, and writes no
    reply at all, whether or not the row was there; with an id that is
    0 it answers 400 and changes nothing. *)
Theorem unregisterMemberFromEvent_run :
  forall (d : Schema.database) (m e : Z),
    Http.run (MemberEventRoutes.unregisterMemberFromEvent
                (Http.Numeral m) (Http.Numeral e)) d
    = if (m =? 0) || (e =? 0) then
        (inr tt,
         {| Http.db := d;
            Http.response :=
              [{| Http.code := 400;
                  Http.content := Http.text "Invalid member or event ID" |}] |})
      else
        (inr tt,
         {| Http.db :=
              Schema.with_registrations
                (filter (fun r => negb (Schema.pair_eqb (m, e) r))
                        (Schema.member_events d)) d;
            Http.response := [] |}).
Proof.
  intros d m e.
  unfold Http.run, MemberEventRoutes.unregisterMemberFromEvent. cbn.
  destruct (m =? 0); cbn; [reflexivity |].
  destruct (e =? 0); cbn; [reflexivity |].
  unfold Http.bind.
  erewrite sendResponse_write by reflexivity.
  reflexivity.
Qed.

(** ** The in-browser member store *)

(** X18.  The two name checks of the browser models agree:
    [Member.validate] accepts a name exactly when [EventType.validate]
    returns a truthy value, that is when the name is neither empty nor
    white space from end to end. *)
Theorem validate_agree :
  forall name : string,
    (MemberStore.validate name = inr true
     <-> JS.truthy (EventType.validate name) = true)
    /\ (MemberStore.validate name = inr true
        <-> name <> "" /\ Strings.blank name = false).
Proof.
  intros name. unfold MemberStore.validate, EventType.validate. cbn.
  destruct (String.eqb_spec name "") as [-> | Hne]; cbn.
  - split; split; try discriminate. intros [H _]. now contradiction H.
  - destruct (Strings.blank name); cbn; split; split; try discriminate; auto.
    intros [_ H]. discriminate.
Qed.

Lemma range_snoc (from : Z) (n : nat) :
  Arrays.range from (S n) = Arrays.range from n ++ [from + Z.of_nat n].
Proof.
  revert from. induction n as [| n IH]; intros from.
  - cbn. now rewrite Z.add_0_r.
  - change (Arrays.range from (S (S n)))
      with (from :: Arrays.range (from + 1) (S n)).
    rewrite IH, (Nat2Z.inj_succ n). cbn [Arrays.range app]. do 3 f_equal. lia.
Qed.

Lemma range_bounds (from : Z) (n : nat) (k : Z) :
  In k (Arrays.range from n) <-> from <= k < from + Z.of_nat n.
Proof.
  revert from. induction n as [| n IH]; intros from; cbn [Arrays.range In].
  - lia.
  - rewrite IH. lia.
Qed.

Lemma range_NoDup (from : Z) (n : nat) : NoDup (Arrays.range from n).
Proof.
  revert from. induction n as [| n IH]; intros from; cbn; constructor; auto.
  rewrite range_bounds. lia.
Qed.

Lemma in_place_ids (p : MemberStore.Member -> bool)
      (found changed : MemberStore.Member) (l : list MemberStore.Member) :
  find p l = Some found ->
  MemberStore.id changed = MemberStore.id found ->
  map MemberStore.id (MemberStore.in_place p changed l) = map MemberStore.id l.
Proof.
  intros Hfind Hid. induction l as [| a l IH]; cbn in *; [reflexivity |].
  destruct (p a).
  - injection Hfind as ->. cbn. now rewrite Hid.
  - cbn. f_equal. now apply IH.
Qed.

Lemma in_place_length (p : MemberStore.Member -> bool)
      (changed : MemberStore.Member) (l : list MemberStore.Member) :
  List.length (MemberStore.in_place p changed l) = List.length l.
Proof.
  induction l as [| a l IH]; cbn; [reflexivity |].
  destruct (p a); cbn; auto.
Qed.

Lemma fold_add_id (types : list Z) (member : MemberStore.Member) :
  MemberStore.id
    (fold_left (fun m typeId => MemberStore.addPreferredEventType typeId m)
               types member)
  = MemberStore.id member
  /\ MemberStore.name
       (fold_left (fun m typeId => MemberStore.addPreferredEventType typeId m)
                  types member)
     = MemberStore.name member
  /\ MemberStore.preferredEventTypes
       (fold_left (fun m typeId => MemberStore.addPreferredEventType typeId m)
                  types member)
     = fold_left (fun s x => Sets.add x s) types
                 (MemberStore.preferredEventTypes member).
Proof.
  revert member. induction types as [| t types IH]; intros member; cbn; auto.
  destruct (IH (MemberStore.addPreferredEventType t member)) as (-> & -> & ->).
  auto.
Qed.

Lemma find_id (k : Z) (l : list MemberStore.Member) (m : MemberStore.Member) :
  find (fun x => MemberStore.id x =? k) l = Some m -> MemberStore.id m = k.
Proof.
  intros H. apply find_some in H. destruct H as [_ H]. now apply Z.eqb_eq.
Qed.

(** X19.  The numbering "ids are 1..n in list order and lastId is n"
    holds for a store built over empty storage and is kept by [add],
    by [update] (also when it throws) and by [delete]. *)
Theorem numbering_is_kept :
  MemberStore.numbered (MemberStore.construct None)
  /\ forall s : MemberStore.MemberStoreClass,
      MemberStore.numbered s ->
      (forall name, MemberStore.numbered (snd (MemberStore.add name s)))
      /\ (forall id name preferredTypes,
             MemberStore.numbered (snd (MemberStore.update id name preferredTypes s)))
      /\ (forall id s', MemberStore.delete id s = inr s' -> MemberStore.numbered s').
Proof.
  split; [split; reflexivity |].
  intros s [Hids Hlast]. split; [| split].
  - intros name. unfold MemberStore.add.
    destruct (MemberStore.validate name); [now split |].
    unfold MemberStore.numbered. cbn.
    rewrite map_app, length_app, Hids. cbn.
    rewrite Nat.add_1_r, range_snoc, Hlast. split; [| lia].
    do 2 f_equal. lia.
  - intros id name preferredTypes. unfold MemberStore.update, MemberStore.findById.
    destruct (find _ (MemberStore.members s)) as [member |] eqn:Hfind;
      [| now split].
    destruct (MemberStore.validate name); [now split |].
    destruct preferredTypes as [types |]; unfold MemberStore.numbered; cbn;
      rewrite in_place_length.
    + rewrite (in_place_ids _ member) by
        (auto; destruct (fold_add_id types
                           {| MemberStore.id := MemberStore.id member;
                              MemberStore.name := name;
                              MemberStore.preferredEventTypes := [] |})
           as (-> & _); reflexivity).
      now split.
    + rewrite (in_place_ids _ member) by auto. now split.
  - intros id s' H.
    destruct (MemberStore_delete_inv _ _ _ H) as (index & _ & Hm & Hl & _).
    split; [| exact Hl].
    rewrite Hm at 1.
    rewrite (forEach_sets MemberStore.id MemberStore.set_id (fun idx => idx + 1))
      by reflexivity.
    rewrite range_succ. cbn. now rewrite Hm, forEach_length.
Qed.

Lemma three_members_numbered : MemberStore.numbered Sample.three_members.
Proof. split; reflexivity. Qed.

Lemma numbering_is_kept_witness :
  MemberStore.numbered (snd (MemberStore.add "Eva Lima" Sample.three_members))
  /\ MemberStore.numbered Sample.two_members.
Proof.
  split.
  - apply (proj2 numbering_is_kept Sample.three_members three_members_numbered).
  - apply (proj2 (proj2 (proj2 numbering_is_kept Sample.three_members
                                three_members_numbered))
                 2 Sample.two_members eq_refl).
Defined.

Lemma find_app_new {A} (p : A -> bool) (l : list A) (x : A) :
  (forall y, In y l -> p y = false) -> p x = true ->
  find p (l ++ [x]) = Some x.
Proof.
  intros Hl Hx. induction l as [| a l IH]; cbn; [now rewrite Hx |].
  rewrite (Hl a (or_introl eq_refl)). apply IH. intros y Hy. apply Hl. now right.
Qed.

Lemma find_app_old {A} (p : A -> bool) (l : list A) (x : A) :
  p x = false -> find p (l ++ [x]) = find p l.
Proof.
  intros Hx. induction l as [| a l IH]; cbn; [now rewrite Hx |].
  destruct (p a); auto.
Qed.

(** X20.  [add] takes a name exactly when [Member.validate] does.  In
    a numbered store, a name that is neither empty nor white space from
    end to end is accepted: [add] returns a new member with the id
    [lastId + 1], that name and no preference; no member had that id,
    [findById] of it now returns the new member, every other id is
    found as before, and the store is saved.  Any other name throws and
    leaves the store as it was. *)
Theorem add_then_findById :
  forall (s : MemberStore.MemberStoreClass) (name : string),
    MemberStore.numbered s ->
    (name <> "" ->
     Strings.blank name = false ->
     exists s' : MemberStore.MemberStoreClass,
       MemberStore.add name s
       = (inr (MemberStore.new_Member (MemberStore.lastId s + 1) name), s')
       /\ MemberStore.findById (MemberStore.lastId s + 1) s = None
       /\ MemberStore.findById (MemberStore.lastId s + 1) s'
          = Some (MemberStore.new_Member (MemberStore.lastId s + 1) name)
       /\ NoDup (map MemberStore.id (MemberStore.members s'))
       /\ (forall k, k <> MemberStore.lastId s + 1 ->
                     MemberStore.findById k s' = MemberStore.findById k s)
       /\ MemberStore.localStorage s'
          = Some (MemberStore.lastId s', MemberStore.members s'))
    /\ (name = "" \/ Strings.blank name = true ->
        MemberStore.add name s
        = (inl (JS.Error "Nome do membro é obrigatório"), s)).
Proof.
  intros s name [Hids Hlast]. split.
  - intros Hname Hblank.
    unfold MemberStore.add, MemberStore.validate.
    rewrite (truthy_str _ Hname), Hblank. cbn [negb orb].
    eexists. split; [reflexivity |].
    assert (Hfresh : forall y, In y (MemberStore.members s) ->
                               (MemberStore.id y =? MemberStore.lastId s + 1) = false).
    { intros y Hy. apply Z.eqb_neq. intros Heq.
      assert (Hin : In (MemberStore.id y) (map MemberStore.id (MemberStore.members s)))
        by now apply in_map.
      rewrite Hids in Hin. apply range_bounds in Hin. lia. }
    unfold MemberStore.findById. cbn.
    split; [| split; [| split; [| split]]].
    + destruct (find _ (MemberStore.members s)) as [y |] eqn:Hfind; [| reflexivity].
      apply find_some in Hfind. destruct Hfind as [Hin Heq].
      rewrite (Hfresh y Hin) in Heq. discriminate.
    + apply find_app_new; [exact Hfresh | cbn; apply Z.eqb_refl].
    + rewrite map_app, Hids. cbn.
      apply NoDup_snoc; [apply range_NoDup | rewrite range_bounds; lia].
    + intros k Hk. apply find_app_old. cbn. apply Z.eqb_neq. auto.
    + reflexivity.
  - intros [-> | Hblank]; unfold MemberStore.add, MemberStore.validate.
    + reflexivity.
    + rewrite Hblank, orb_true_r. reflexivity.
Qed.

Lemma add_then_findById_witness :
  MemberStore.findById 4 (snd (MemberStore.add "Eva Lima" Sample.three_members))
  = Some {| MemberStore.id := 4; MemberStore.name := "Eva Lima";
            MemberStore.preferredEventTypes := [] |}
  /\ MemberStore.add "   " Sample.three_members
     = (inl (JS.Error "Nome do membro é obrigatório"), Sample.three_members).
Proof.
  pose proof (add_then_findById Sample.three_members "Eva Lima" three_members_numbered)
    as [Haccepts _].
  pose proof (add_then_findById Sample.three_members "   " three_members_numbered)
    as [_ Hrejects].
  destruct (Haccepts ltac:(discriminate) eq_refl) as (s' & Hadd & _ & Hfound & _).
  split.
  - rewrite Hadd. exact Hfound.
  - apply Hrejects. now right.
Defined.

Section SetLemmas.

Lemma has_spec (x : Z) (s : list Z) : Sets.has x s = true <-> In x s.
Proof.
  unfold Sets.has. rewrite existsb_exists. split.
  - intros (y & Hy & Heq). apply Z.eqb_eq in Heq. now subst.
  - intros H. exists x. split; [exact H | apply Z.eqb_refl].
Qed.

Lemma add_spec (x y : Z) (s : list Z) : In y (Sets.add x s) <-> y = x \/ In y s.
Proof.
  unfold Sets.add. destruct (Sets.has x s) eqn:Hx.
  - apply has_spec in Hx. split; [auto | intros [-> | H]; auto].
  - rewrite in_app_iff. cbn. intuition.
Qed.

Lemma add_NoDup (x : Z) (s : list Z) : NoDup s -> NoDup (Sets.add x s).
Proof.
  intros Hs. unfold Sets.add. destruct (Sets.has x s) eqn:Hx; [exact Hs |].
  apply NoDup_snoc; [exact Hs |]. intros Hin. apply has_spec in Hin. congruence.
Qed.

Lemma fold_add_spec (l s : list Z) :
  NoDup s ->
  NoDup (fold_left (fun s x => Sets.add x s) l s)
  /\ forall y, In y (fold_left (fun s x => Sets.add x s) l s) <-> In y s \/ In y l.
Proof.
  revert s. induction l as [| x l IH]; intros s Hs; cbn.
  - split; [exact Hs | intuition].
  - destruct (IH (Sets.add x s) (add_NoDup x s Hs)) as [Hnd Hin].
    split; [exact Hnd |]. intros y. rewrite Hin, add_spec. intuition.
Qed.

Lemma fold_add_NoDup (l s : list Z) :
  NoDup (s ++ l) -> fold_left (fun s x => Sets.add x s) l s = s ++ l.
Proof.
  revert s. induction l as [| x l IH]; intros s Hnd; cbn.
  - now rewrite app_nil_r.
  - assert (Hx : Sets.has x s = false).
    { apply not_true_iff_false. intros Hin. apply has_spec in Hin.
      apply NoDup_remove_2 in Hnd. apply Hnd. apply in_app_iff. now left. }
    unfold Sets.add at 2. rewrite Hx.
    rewrite IH; rewrite <- app_assoc; [reflexivity | exact Hnd].
Qed.

End SetLemmas.

Lemma find_in_place (p : MemberStore.Member -> bool)
      (found changed : MemberStore.Member) (l : list MemberStore.Member) :
  find p l = Some found -> p changed = true ->
  find p (MemberStore.in_place p changed l) = Some changed.
Proof.
  intros Hfind Hp. induction l as [| a l IH]; cbn in *; [discriminate |].
  destruct (p a) eqn:Ha; cbn.
  - now rewrite Hp.
  - rewrite Ha. now apply IH.
Qed.

(** X21.  [update] looks the member up before it checks the name: an
    id that is not in the store throws "Membro não encontrado" even with
    an invalid name, and the store is untouched.  When it succeeds, the
    member keeps its id, gets the new name, and its preferences are
    exactly the listed types, each once (the old ones are dropped);
    [findById] returns the updated member, the ids of the store are as
    before, and the store is saved. *)
Theorem update_replaces_preferences :
  forall (s : MemberStore.MemberStoreClass) (id : Z) (name : string)
         (types : list Z),
    (MemberStore.findById id s = None ->
     MemberStore.update id name (Some types) s
     = (inl (JS.Error "Membro não encontrado"), s))
    /\ forall (member : MemberStore.Member) (s' : MemberStore.MemberStoreClass),
        MemberStore.update id name (Some types) s = (inr member, s') ->
        MemberStore.id member = id
        /\ MemberStore.name member = name
        /\ NoDup (MemberStore.preferredEventTypes member)
        /\ (forall t, In t (MemberStore.preferredEventTypes member) <-> In t types)
        /\ MemberStore.findById id s' = Some member
        /\ map MemberStore.id (MemberStore.members s')
           = map MemberStore.id (MemberStore.members s)
        /\ MemberStore.localStorage s'
           = Some (MemberStore.lastId s', MemberStore.members s').
Proof.
  intros s id name types. unfold MemberStore.update, MemberStore.findById.
  split; [intros ->; reflexivity |].
  intros member s' H.
  destruct (find _ (MemberStore.members s)) as [found |] eqn:Hfind;
    [| discriminate].
  destruct (MemberStore.validate name); [discriminate |].
  injection H as <- <-.
  destruct (fold_add_id types
              {| MemberStore.id := MemberStore.id found; MemberStore.name := name;
                 MemberStore.preferredEventTypes := [] |}) as (Hid & Hname & Hprefs).
  cbn in Hid, Hname, Hprefs.
  pose proof (find_id _ _ _ Hfind) as Hfound.
  destruct (fold_add_spec types [] (NoDup_nil Z)) as [Hnd Hin].
  repeat split.
  - congruence.
  - exact Hname.
  - now rewrite Hprefs.
  - rewrite Hprefs, Hin. cbn. tauto.
  - rewrite Hprefs, Hin. cbn. tauto.
  - cbn. apply (find_in_place _ found); [exact Hfind |].
    apply Z.eqb_eq. congruence.
  - cbn. apply (in_place_ids _ found); [exact Hfind | exact Hid].
Qed.

Lemma update_replaces_preferences_witness :
  MemberStore.update 9 "" (Some [1]) Sample.three_members
  = (inl (JS.Error "Membro não encontrado"), Sample.three_members)
  /\ MemberStore.findById 2
       (snd (MemberStore.update 2 "Maria Reis" (Some [2; 2; 3]) Sample.three_members))
     = Some {| MemberStore.id := 2; MemberStore.name := "Maria Reis";
               MemberStore.preferredEventTypes := [2; 3] |}.
Proof.
  split.
  - apply (proj1 (update_replaces_preferences Sample.three_members 9 "" [1])).
    reflexivity.
  - apply (proj2 (update_replaces_preferences
                    Sample.three_members 2 "Maria Reis" [2; 2; 3])
                 {| MemberStore.id := 2; MemberStore.name := "Maria Reis";
                    MemberStore.preferredEventTypes := [2; 3] |}
                 (snd (MemberStore.update 2 "Maria Reis" (Some [2; 2; 3])
                                          Sample.three_members))
                 eq_refl).
Defined.

(** X22.  [update] called without the list of types, as the member
    manager calls it, throws a TypeError after it has renamed the member
    and cleared its preferences: the member in the store is changed,
    but nothing is saved to localStorage. *)
Theorem update_without_types :
  forall (s : MemberStore.MemberStoreClass) (id : Z) (name : string)
         (found : MemberStore.Member),
    MemberStore.findById id s = Some found ->
    MemberStore.validate name = inr true ->
    exists s' : MemberStore.MemberStoreClass,
      MemberStore.update id name None s
      = (inl (JS.TypeError "Cannot read properties of undefined"), s')
      /\ MemberStore.findById id s'
         = Some {| MemberStore.id := id; MemberStore.name := name;
                   MemberStore.preferredEventTypes := [] |}
      /\ MemberStore.localStorage s' = MemberStore.localStorage s.
Proof.
  intros s id name found Hfind Hvalid.
  unfold MemberStore.update. rewrite Hfind, Hvalid.
  eexists. split; [reflexivity |].
  unfold MemberStore.findById in *. cbn.
  pose proof (find_id _ _ _ Hfind) as Hid. rewrite Hid.
  split; [| reflexivity].
  apply (find_in_place _ found); [exact Hfind | cbn; apply Z.eqb_refl].
Qed.

Lemma update_without_types_witness :
  exists s' : MemberStore.MemberStoreClass,
    MemberStore.update 2 "Maria Reis" None Sample.three_members
    = (inl (JS.TypeError "Cannot read properties of undefined"), s')
    /\ MemberStore.findById 2 s'
       = Some {| MemberStore.id := 2; MemberStore.name := "Maria Reis";
                 MemberStore.preferredEventTypes := [] |}
    /\ MemberStore.localStorage s' = MemberStore.localStorage Sample.three_members.
Proof.
  apply (update_without_types
           Sample.three_members 2 "Maria Reis"
           {| MemberStore.id := 2; MemberStore.name := "Maria Santos";
              MemberStore.preferredEventTypes := [1] |}
           eq_refl eq_refl).
Defined.

Section Positions.

Lemma nth_error_range (from : Z) (n i : nat) :
  nth_error (Arrays.range from n) i
  = if (i <? n)%nat then Some (from + Z.of_nat i) else None.
Proof.
  revert from i. induction n as [| n IH]; intros from [| i]; cbn [Arrays.range nth_error];
    try reflexivity.
  - cbn. f_equal. lia.
  - rewrite IH. change (S i <? S n)%nat with (i <? n)%nat.
    destruct (i <? n)%nat; [f_equal; lia | reflexivity].
Qed.

Lemma find_numbered (from j : Z) (l : list MemberStore.Member) :
  map MemberStore.id l = Arrays.range from (List.length l) ->
  find (fun x => MemberStore.id x =? j) l
  = if from <=? j then nth_error l (Z.to_nat (j - from)) else None.
Proof.
  revert from. induction l as [| a l IH]; intros from Hids; cbn in *.
  - destruct (from <=? j); [now destruct (Z.to_nat (j - from)) | reflexivity].
  - injection Hids as Ha Hl. rewrite Ha, (IH _ Hl).
    destruct (from =? j) eqn:Heq.
    + apply Z.eqb_eq in Heq. subst j.
      rewrite Z.leb_refl, Z.sub_diag. reflexivity.
    + apply Z.eqb_neq in Heq.
      destruct (from <=? j) eqn:Hle.
      * apply Z.leb_le in Hle.
        replace (from + 1 <=? j) with true by (symmetry; apply Z.leb_le; lia).
        replace (Z.to_nat (j - from)) with (S (Z.to_nat (j - (from + 1)))) by lia.
        reflexivity.
      * apply Z.leb_gt in Hle.
        replace (from + 1 <=? j) with false by (symmetry; apply Z.leb_gt; lia).
        reflexivity.
Qed.

Lemma nth_error_forEach {A} (f : A -> Z -> A) (idx : Z) (l : list A) (i : nat) :
  nth_error (Arrays.forEach f idx l) i
  = option_map (fun x => f x (idx + Z.of_nat i)) (nth_error l i).
Proof.
  revert idx i. induction l as [| a l IH]; intros idx [| i]; cbn [Arrays.forEach nth_error option_map];
    try reflexivity.
  - now rewrite Z.add_0_r.
  - rewrite IH. destruct (nth_error l i); cbn; [| reflexivity].
    do 2 f_equal. lia.
Qed.

Lemma nth_error_splice {A} (index : nat) (l : list A) (i : nat) :
  nth_error (Arrays.splice index l) i
  = nth_error l (if (i <? index)%nat then i else S i).
Proof.
  revert index i. induction l as [| a l IH]; intros [| index] [| i]; cbn [Arrays.splice nth_error];
    try reflexivity.
  - now destruct (_ <? _)%nat.
  - rewrite IH. change (S i <? S index)%nat with (i <? index)%nat.
    now destruct (i <? index)%nat.
Qed.

End Positions.

(** X23.  In a numbered store, [delete(k)] moves every later member one
    id down: afterwards the id j designates the member that had the id
    j when j < k, and the member that had the id j + 1 when j >= k (so
    the id k, just deleted, now finds the next member). *)
Theorem delete_shifts_ids :
  forall (s s' : MemberStore.MemberStoreClass) (k j : Z),
    MemberStore.numbered s ->
    MemberStore.delete k s = inr s' ->
    MemberStore.findById j s'
    = option_map (fun member => MemberStore.set_id member (j - 1))
                 (MemberStore.findById (if j <? k then j else j + 1) s).
Proof.
  intros s s' k j [Hids Hlast] Hdel.
  destruct (MemberStore_delete_inv _ _ _ Hdel) as (index & Hnth & Hm & _ & _).
  assert (Hk : k = 1 + Z.of_nat index /\ (index < List.length (MemberStore.members s))%nat).
  { rewrite Hids, nth_error_range in Hnth.
    destruct (index <? _)%nat eqn:Hlt; [| discriminate].
    apply Nat.ltb_lt in Hlt. injection Hnth as <-. split; [reflexivity | exact Hlt]. }
  destruct Hk as [-> Hindex].
  assert (Hids' : map MemberStore.id (MemberStore.members s')
                  = Arrays.range 1 (List.length (MemberStore.members s'))).
  { rewrite Hm at 1.
    rewrite (forEach_sets MemberStore.id MemberStore.set_id (fun idx => idx + 1))
      by reflexivity.
    rewrite range_succ. cbn. now rewrite Hm, forEach_length. }
  unfold MemberStore.findById.
  rewrite (find_numbered 1 j _ Hids'), (find_numbered 1 _ _ Hids).
  destruct (1 <=? j) eqn:Hj.
  - apply Z.leb_le in Hj.
    rewrite Hm, nth_error_forEach, nth_error_splice.
    replace (0 + Z.of_nat (Z.to_nat (j - 1))) with (j - 1) by lia.
    destruct (j <? 1 + Z.of_nat index) eqn:Hlt.
    + apply Z.ltb_lt in Hlt.
      replace (Z.to_nat (j - 1) <? index)%nat with true
        by (symmetry; apply Nat.ltb_lt; lia).
      replace (1 <=? j) with true by (symmetry; apply Z.leb_le; lia).
      reflexivity.
    + apply Z.ltb_ge in Hlt.
      replace (Z.to_nat (j - 1) <? index)%nat with false
        by (symmetry; apply Nat.ltb_ge; lia).
      replace (1 <=? j + 1) with true by (symmetry; apply Z.leb_le; lia).
      replace (Z.to_nat (j + 1 - 1)) with (S (Z.to_nat (j - 1))) by lia.
      reflexivity.
  - apply Z.leb_gt in Hj.
    replace (j <? 1 + Z.of_nat index) with true by (symmetry; apply Z.ltb_lt; lia).
    replace (1 <=? j) with false by (symmetry; apply Z.leb_gt; lia).
    reflexivity.
Qed.

Lemma delete_shifts_ids_witness :
  MemberStore.findById 2 Sample.two_members
  = option_map (fun member => MemberStore.set_id member 1)
               (MemberStore.findById 3 Sample.three_members).
Proof.
  apply (delete_shifts_ids Sample.three_members Sample.two_members 2 2
                           three_members_numbered eq_refl).
Defined.

(** X24.  What [saveToStorage] writes is what a new store reads back:
    when every member's preferences are a set (no type twice), a store
    constructed over the saved item has the same members in the same
    order and the same [lastId]. *)
Theorem storage_round_trip :
  forall s : MemberStore.MemberStoreClass,
    (forall member, In member (MemberStore.members s) ->
                    NoDup (MemberStore.preferredEventTypes member)) ->
    MemberStore.members
      (MemberStore.construct (MemberStore.localStorage (MemberStore.saveToStorage s)))
    = MemberStore.members s
    /\ MemberStore.lastId
         (MemberStore.construct (MemberStore.localStorage (MemberStore.saveToStorage s)))
       = MemberStore.lastId s.
Proof.
  intros s Hsets. cbn. split; [| reflexivity].
  induction (MemberStore.members s) as [| a l IH]; cbn; [reflexivity |].
  rewrite IH by (intros m Hm; apply Hsets; now right). f_equal.
  unfold MemberStore.fromJSON, Sets.of_array.
  rewrite (fold_add_NoDup _ []) by (apply Hsets; now left).
  destruct a; reflexivity.
Qed.

Lemma storage_round_trip_witness :
  MemberStore.members
    (MemberStore.construct
       (MemberStore.localStorage (MemberStore.saveToStorage Sample.three_members)))
  = MemberStore.members Sample.three_members.
Proof.
  apply (storage_round_trip Sample.three_members).
  intros member Hm. cbn in Hm.
  destruct Hm as [<- | [<- | [<- | []]]]; cbn; check_rows.
Defined.

(** ** Participants of an event *)

(** X25.  The participants of an event behave as a set: after
    [addParticipant] the member is a participant and no member appears
    twice; adding the member again changes nothing; after
    [removeParticipant] the member is not a participant; and removing a
    member just added to an event he was not in gives the event back. *)
Theorem participants_are_a_set :
  forall (memberId : Z) (event : EventStore.Event),
    NoDup (EventStore.participants event) ->
    EventStore.hasParticipant memberId (EventStore.addParticipant memberId event) = true
    /\ NoDup (EventStore.participants (EventStore.addParticipant memberId event))
    /\ EventStore.addParticipant memberId (EventStore.addParticipant memberId event)
       = EventStore.addParticipant memberId event
    /\ EventStore.hasParticipant memberId (EventStore.removeParticipant memberId event)
       = false
    /\ (EventStore.hasParticipant memberId event = false ->
        EventStore.removeParticipant memberId (EventStore.addParticipant memberId event)
        = event).
Proof.
  intros memberId event Hnd.
  unfold EventStore.hasParticipant, EventStore.addParticipant,
    EventStore.removeParticipant. cbn.
  assert (Hadded : Sets.has memberId (Sets.add memberId (EventStore.participants event))
                   = true).
  { apply has_spec, add_spec. now left. }
  split; [exact Hadded |].
  split; [now apply add_NoDup |].
  split; [unfold Sets.add at 1; now rewrite Hadded |].
  split.
  { apply not_true_iff_false. intros H. apply has_spec in H.
    apply filter_In in H. destruct H as [_ H]. now rewrite Z.eqb_refl in H. }
  intros Hnot. unfold Sets.add. rewrite Hnot. unfold Sets.delete.
  rewrite filter_app. cbn. rewrite Z.eqb_refl. cbn. rewrite app_nil_r.
  rewrite filter_negb_all.
  - destruct event; reflexivity.
  - unfold Sets.has in Hnot. now apply existsb_false_iff.
Qed.

Lemma participants_are_a_set_witness :
  EventStore.hasParticipant
    7 (EventStore.addParticipant
         7 {| EventStore.id := 1; EventStore.typeId := 1;
              EventStore.name := "Passeio na Cidade";
              EventStore.date := 1750000000000; EventStore.participants := [1] |})
  = true.
Proof.
  apply (participants_are_a_set
           7 {| EventStore.id := 1; EventStore.typeId := 1;
                EventStore.name := "Passeio na Cidade";
                EventStore.date := 1750000000000; EventStore.participants := [1] |}).
  cbn. check_rows.
Defined.

(** X26.  [getAvailableForMember] offers exactly the events of the store
    that start after now, have one of the preferred types and do not
    have the member as a participant; so a member without preferred
    types is offered nothing, and an event to which the member was
    added is never offered. *)
Theorem getAvailableForMember_offers :
  forall (now memberId : Z) (preferredTypes : list Z) (s : EventStore.EventStoreClass),
    (forall e : EventStore.Event,
        In e (EventStore.getAvailableForMember now memberId preferredTypes s)
        <-> In e (EventStore.events s)
            /\ now < EventStore.date e
            /\ In (EventStore.typeId e) preferredTypes
            /\ EventStore.hasParticipant memberId e = false)
    /\ EventStore.getAvailableForMember now memberId [] s = []
    /\ forall e : EventStore.Event,
        ~ In (EventStore.addParticipant memberId e)
             (EventStore.getAvailableForMember now memberId preferredTypes s).
Proof.
  intros now memberId preferredTypes s. repeat apply conj.
  - intros e. unfold EventStore.getAvailableForMember. rewrite filter_In.
    rewrite !andb_true_iff, Z.ltb_lt, negb_true_iff, existsb_exists.
    split.
    + intros (Hin & (Hdate & t & Ht & Heq) & Hjoined).
      apply Z.eqb_eq in Heq. subst t. now repeat split.
    + intros (Hin & Hdate & Htype & Hjoined).
      repeat split; try assumption.
      exists (EventStore.typeId e). split; [assumption | apply Z.eqb_refl].
  - unfold EventStore.getAvailableForMember.
    induction (EventStore.events s) as [| e l IH]; cbn; [reflexivity |].
    rewrite andb_false_r. exact IH.
  - intros e He. unfold EventStore.getAvailableForMember in He.
    apply filter_In in He. destruct He as [_ He].
    apply andb_true_iff in He. destruct He as [_ He].
    apply negb_true_iff in He.
    unfold EventStore.hasParticipant, EventStore.addParticipant in He. cbn in He.
    apply not_true_iff_false in He. apply He, has_spec, add_spec. now left.
Qed.
